(** * pyIOSXR: the XML-over-CLI session engine of [pyIOSXR/iosxr.py]

    A shallow embedding of [__execute_rpc__], [__execute_show__],
    [__execute_config_show__] and of the methods of class [IOSXR], followed
    by the properties of the error classification, of the request envelope,
    of the discard-on-invalid-input compensation, of the diff trimming and
    of the dynamic [show_*] dispatch.

    Modelling decisions, all visible in the definitions below:
    - Python 2 text is a [string], a sequence of 8-bit characters; [None]
      is [option]'s [None].  ElementTree hands the text of an element over
      as a [str] when it is all ASCII and as a [unicode] object otherwise:
      such a text is held as its UTF-8 encoding, and [lstrip] and
      [splitlines] follow the rules of the kind of text they are given.
    - The pexpect child is a [Device]: the log of everything the program did
      to it, and an oracle [child] that answers each [expect] from the log so
      far.  Every deterministic device is such an oracle, and the theorems
      quantify over all of them.  [sendline] only appends to the log.
    - [ET.fromstring], [difflib.unified_diff], [pexpect.spawn] and the file
      system are collaborators outside the file; they are Section variables.
    - Exceptions are values of [exn]; a computation returns a [result] next
      to the final state. *)

From stdpp Require Import base option list gmap strings.
From Stdlib Require Import ZArith Ascii Lia.

Local Open Scope Z_scope.
Local Open Scope list_scope.

(** ** Text: the [str] methods the source calls *)

Module Text.

Definition LF : ascii := "010"%char.
Definition CR : ascii := "013"%char.
Definition DQ : ascii := "034"%char.

Definition chr (c : ascii) : string := String c EmptyString.

(** The characters [str.isspace] accepts for an 8-bit string:
    space, tab, line feed, vertical tab, form feed, carriage return. *)
Definition whitespace : list ascii :=
  [" "; "009"; "010"; "011"; "012"; "013"]%char.

Definition isspace (c : ascii) : bool := existsb (Ascii.eqb c) whitespace.

(** The whitespace [int] skips in an 8-bit string. *)
Fixpoint skip_spaces (s : string) : string :=
  match s with
  | String c s' => if isspace c then skip_spaces s' else s
  | EmptyString => EmptyString
  end.

(** The text of an element is a [unicode] object when it has a character
    that is not ASCII, which shows here as a byte above 127. *)
Fixpoint is_unicode (s : string) : bool :=
  match s with
  | EmptyString => false
  | String c s' => (128 <=? N_of_ascii c)%N || is_unicode s'
  end.

(** The UTF-8 encoding of a code point below 65536. *)
Definition utf8 (cp : N) : string :=
  let byte n := chr (ascii_of_N n) in
  if (cp <? 128)%N then byte cp
  else if (cp <? 2048)%N
       then byte (192 + cp / 64)%N +:+ byte (128 + cp mod 64)%N
       else byte (224 + cp / 4096)%N +:+ byte (128 + (cp / 64) mod 64)%N
            +:+ byte (128 + cp mod 64)%N.

(** What [lstrip()] removes: the characters of [str.isspace] from a [str],
    the code points of [unicode.isspace] from a [unicode] text. *)
Definition str_whitespace : list string := map chr whitespace.

Definition unicode_whitespace : list string :=
  map utf8 [9; 10; 11; 12; 13; 28; 29; 30; 31; 32; 133; 160; 5760; 6158;
            8192; 8193; 8194; 8195; 8196; 8197; 8198; 8199; 8200; 8201; 8202;
            8232; 8233; 8239; 8287; 12288]%N.

Definition whitespace_of (s : string) : list string :=
  if is_unicode s then unicode_whitespace else str_whitespace.

(** Where [splitlines] ends a line: CR LF, LF or CR in a [str]; in a
    [unicode] text also VT, FF, FS, GS, RS, NEL and the line and paragraph
    separators.  CR LF comes first, it is one line end. *)
Definition str_linebreaks : list string :=
  [chr CR +:+ chr LF; chr LF; chr CR].

Definition unicode_linebreaks : list string :=
  str_linebreaks ++ map utf8 [11; 12; 28; 29; 30; 133; 8232; 8233]%N.

Definition linebreaks_of (s : string) : list string :=
  if is_unicode s then unicode_linebreaks else str_linebreaks.

(** What is left of [s] after the prefix [p]. *)
Fixpoint after (p s : string) : option string :=
  match p, s with
  | EmptyString, _ => Some s
  | String a p', String b s' => if Ascii.eqb a b then after p' s' else None
  | String _ _, EmptyString => None
  end.

(** The first of [ws] that [s] begins with, and the rest of [s]. *)
Fixpoint first_prefix (ws : list string) (s : string)
  : option (string * string) :=
  match ws with
  | [] => None
  | w :: ws' =>
      match after w s with
      | Some rest => Some (w, rest)
      | None => first_prefix ws' s
      end
  end.

(** [s.lstrip()]: whitespace is removed from the front as long as there is
    some; every step removes a character, so the length of the text is
    fuel enough. *)
Fixpoint lstrip_from (fuel : nat) (blanks : list string) (s : string)
  : string :=
  match fuel with
  | O => s
  | S fuel' =>
      match first_prefix blanks s with
      | Some (_, rest) => lstrip_from fuel' blanks rest
      | None => s
      end
  end.

Definition lstrip (s : string) : string :=
  lstrip_from (String.length s) (whitespace_of s) s.

(** [s.startswith(p)] *)
Definition startswith (s p : string) : bool := String.prefix p s.

(** [sub in s] for strings *)
Fixpoint contains (sub s : string) : bool :=
  String.prefix sub s ||
  match s with
  | String _ s' => contains sub s'
  | EmptyString => false
  end.

(** [s.replace(old, new)] where [old] is a single character, as in both
    uses of the source ([replace('_', ' ')] and [replace('\r', '')]). *)
Fixpoint replace (old : ascii) (new : string) (s : string) : string :=
  match s with
  | EmptyString => EmptyString
  | String c s' =>
      (if Ascii.eqb c old then new else chr c) +:+ replace old new s'
  end.

(** [''.join(l)] *)
Definition join (l : list string) : string := String.concat EmptyString l.

(** [s.splitlines(1)]: lines end at the line breaks of the kind of text
    and keep their terminator; [cur] is the line read so far.  Every step
    consumes a character, so the length of the text is fuel enough.  The
    text that is split is what [lstrip] returned, which has the kind of
    the payload; on ASCII text the two kinds differ only at VT, FF, FS, GS,
    RS and US, which XML text cannot hold, so the kind is read off the
    text itself. *)
Fixpoint splitlines_from (fuel : nat) (breaks : list string) (cur s : string)
  : list string :=
  match fuel, s with
  | S fuel', String c s' =>
      match first_prefix breaks s with
      | Some (b, rest) =>
          (cur +:+ b) :: splitlines_from fuel' breaks EmptyString rest
      | None => splitlines_from fuel' breaks (cur +:+ chr c) s'
      end
  | _, _ => match cur with EmptyString => [] | _ => [cur] end
  end.

Definition splitlines (s : string) : list string :=
  splitlines_from (String.length s) (linebreaks_of s) EmptyString s.

(** [l[2:-2]]: Python clamps both bounds, so the slice runs from index
    [min 2 (len l)] up to, and not including, index [max (len l - 2) 0]. *)
Definition slice (l : list string) (start stop : Z) : list string :=
  let n := Z.of_nat (length l) in
  let clamp i := Z.max 0 (Z.min n (if i <? 0 then n + i else i)) in
  let lo := clamp start in
  let hi := clamp stop in
  take (Z.to_nat (hi - lo)) (drop (Z.to_nat lo) l).

(** [int(s)] on an 8-bit string, base 10: surrounding whitespace, an
    optional sign, at least one decimal digit.  [None] is [ValueError]. *)
Definition digit (c : ascii) : option Z :=
  let n := Z.of_nat (nat_of_ascii c) in
  if (48 <=? n) && (n <=? 57) then Some (n - 48) else None.

Fixpoint all_space (s : string) : bool :=
  match s with
  | EmptyString => true
  | String c s' => isspace c && all_space s'
  end.

Fixpoint int_digits (acc : Z) (seen : bool) (s : string) : option Z :=
  match s with
  | EmptyString => if seen then Some acc else None
  | String c s' =>
      match digit c with
      | Some d => int_digits (10 * acc + d) true s'
      | None => if seen && all_space s then Some acc else None
      end
  end.

Definition int (s : string) : option Z :=
  match skip_spaces s with
  | String c s' =>
      if Ascii.eqb c "-" then Z.opp <$> int_digits 0 false (skip_spaces s')
      else if Ascii.eqb c "+" then int_digits 0 false (skip_spaces s')
      else int_digits 0 false (String c s')
  | EmptyString => None
  end.

End Text.

(** ** The parsed response: [xml.etree.ElementTree.Element] *)

#[warnings="-register-all"]
Inductive Element : Type :=
  mkElement {
    tag : string;
    attrib : gmap string string;
    text : option string;
    children : list Element
  }.

(** [e.find(t)] for a plain tag [t]: the first direct child with that tag. *)
Definition find (e : Element) (t : string) : option Element :=
  List.find (fun x => String.eqb (tag x) t) (children e).

(** [e.get(name)] *)
Definition get (e : Element) (name : string) : option string :=
  attrib e !! name.

(** [t in tags] for a list of tag names *)
Definition tag_in (t : string) (tags : list string) : bool :=
  existsb (String.eqb t) tags.

(** ** Exceptions and results *)

Inductive exn : Type :=
  | TIMEOUT                       (* pexpect.TIMEOUT *)
  | EOF                           (* pexpect.EOF *)
  | ExceptionPexpect              (* pexpect could not start the command *)
  | ParseError                    (* ET.fromstring *)
  | AttributeError (msg : string)
  | TypeError (msg : string)
  | ValueError                    (* int() on a non-number *)
  | IOError                       (* open(filename) *)
  | XMLCLIError (msg : string)
  | InvalidInputError (msg : string).

Inductive result (A : Type) : Type :=
  | Return (a : A)
  | Raise (e : exn).
Arguments Return {A} a.
Arguments Raise {A} e.

(** The documented error kinds, and the exception classes that realise them.
    [XMLCLIError] is the protocol error, [InvalidInputError] the input
    validation error; pexpect's exceptions are the transport errors and
    [ParseError] the malformed response.  No class of the program realises
    the authentication error; Python's own [AttributeError], [TypeError],
    [ValueError] and [IOError] are outside the documented kinds. *)
Inductive error_kind : Type :=
  | TransportError
  | AuthenticationError
  | MalformedResponseError
  | ProtocolError
  | InputValidationError.

Definition taxonomy (e : exn) : option error_kind :=
  match e with
  | TIMEOUT | EOF | ExceptionPexpect => Some TransportError
  | ParseError => Some MalformedResponseError
  | XMLCLIError _ => Some ProtocolError
  | InvalidInputError _ => Some InputValidationError
  | AttributeError _ | TypeError _ | ValueError | IOError => None
  end.

(** ** The pexpect child *)

Inductive pattern : Type :=
  | Re (p : string)     (* a regular expression, given as text *)
  | PEOF.               (* pexpect.EOF used as a pattern *)

Inductive action : Type :=
  | Sendline (s : string)
  | Expect (pats : list pattern)
  | Close.

Inductive outcome : Type :=
  | Matched (index : nat) (matched : string)
  | Timeout
  | Eof.

Record Device : Type :=
  mkDevice {
    child : list action -> outcome;   (* the reply to the last [Expect] of a log *)
    log : list action
  }.

Definition record (a : action) (d : Device) : Device :=
  {| child := child d; log := log d ++ [a] |}.

(** A computation on a state [S] (the device, or the session object):
    a result and the state afterwards. *)
Definition M (S A : Type) : Type := S -> result A * S.

Definition ret {S A} (a : A) : M S A := fun s => (Return a, s).
Definition raise {S A} (e : exn) : M S A := fun s => (Raise e, s).
Definition bind {S A B} (m : M S A) (k : A -> M S B) : M S B :=
  fun s => match m s with
           | (Return a, s') => k a s'
           | (Raise e, s') => (Raise e, s')
           end.

Notation "x <- m ;; k" := (bind m (fun x => k))
  (at level 100, m at next level, right associativity).
Notation "m ;;; k" := (bind m (fun _ => k))
  (at level 100, right associativity).

(** [o] when it is a value, the exception [e] when it is [None]. *)
Definition or_raise {S A} (o : option A) (e : exn) : M S A :=
  match o with
  | Some a => ret a
  | None => raise e
  end.

Definition no_attribute (attr : string) : exn :=
  AttributeError ("'NoneType' object has no attribute '" +:+ attr +:+ "'").

(** [device.sendline(s)] *)
Definition sendline (s : string) : M Device unit :=
  fun d => (Return tt, record (Sendline s) d).

Fixpoint index_of_eof (pats : list pattern) : option nat :=
  match pats with
  | [] => None
  | PEOF :: _ => Some 0%nat
  | Re _ :: pats' => S <$> index_of_eof pats'
  end.

(** [device.expect(pats)]: the index of the pattern that matched together
    with [device.match.group()].  End of stream is a match when
    [pexpect.EOF] is among the patterns and raises otherwise; a timeout
    always raises, no caller lists [pexpect.TIMEOUT]. *)
Definition expect (pats : list pattern) : M Device (nat * string) :=
  fun d =>
    let d' := record (Expect pats) d in
    match child d' (log d') with
    | Matched i s => (Return (i, s), d')
    | Timeout => (Raise TIMEOUT, d')
    | Eof =>
        match index_of_eof pats with
        | Some i => (Return (i, EmptyString), d')
        | None => (Raise EOF, d')
        end
    end.

(** [device.close()] *)
Definition close_child : M Device unit :=
  fun d => (Return tt, record Close d).

(** ** The RPC codec *)

Definition quoted (s : string) : string :=
  Text.chr Text.DQ +:+ s +:+ Text.chr Text.DQ.

Definition request_header : string :=
  "<?xml version=" +:+ quoted "1.0" +:+ " encoding=" +:+ quoted "UTF-8"
  +:+ "?><Request MajorVersion=" +:+ quoted "1"
  +:+ " MinorVersion=" +:+ quoted "0" +:+ ">".

Definition request_footer : string := "</Request>".

Definition response_pattern : list pattern := [Re "<.*</Response>"].

Section Codec.

(** [ET.fromstring]; [None] stands for [ParseError]. *)
Variable fromstring : string -> option Element.

Definition __execute_rpc__ (device : Device) (rpc_command : string)
  : result Element * Device :=
  let rpc_command := request_header +:+ rpc_command +:+ request_footer in
  (sendline rpc_command ;;;
   m <- expect response_pattern ;;
   let response := snd m in
   root <- or_raise (fromstring response) ParseError ;;
   let childs := map tag (children root) in
   summary <- or_raise (find root "ResultSummary") (no_attribute "get") ;;
   count <- or_raise (get summary "ErrorCount")
              (TypeError "int() argument must be a string or a number, not 'NoneType'") ;;
   errors <- or_raise (Text.int count) ValueError ;;
   if 0 <? errors then
     error_msg <- (if tag_in "CLI" childs
                   then cli <- or_raise (find root "CLI") (no_attribute "get") ;;
                        ret (get cli "ErrorMsg")
                   else ret (get root "ErrorMsg")) ;;
     error_msg <- or_raise error_msg
                    (TypeError "unsupported operand type(s) for +=: 'NoneType' and 'str'") ;;
     let error_msg :=
       error_msg +:+ Text.chr Text.LF +:+ "Original call was: " +:+ rpc_command in
     raise (XMLCLIError error_msg)
   else
     (if tag_in "CLI" childs then
        cli <- or_raise (find root "CLI")
                 (TypeError "'NoneType' object is not iterable") ;;
        let cli_childs := map tag (children cli) in
        if tag_in "Configuration" cli_childs then
          conf <- or_raise (find cli "Configuration") (no_attribute "text") ;;
          match text conf with
          | None => ret tt
          | Some output =>
              if Text.contains "Invalid input detected" output
              then raise (InvalidInputError
                            ("Invalid input entered:" +:+ Text.chr Text.LF +:+ output))
              else ret tt
          end
        else ret tt
      else ret tt) ;;;
     ret root) device.

(** Show commands outside the configuration context. *)
Definition __execute_show__ (device : Device) (show_command : string)
  : result string * Device :=
  let rpc_command := "<CLI><Exec>" +:+ show_command +:+ "</Exec></CLI>" in
  (response <- (fun d => __execute_rpc__ d rpc_command) ;;
   cli <- or_raise (find response "CLI") (no_attribute "find") ;;
   exec <- or_raise (find cli "Exec") (no_attribute "text") ;;
   payload <- or_raise (text exec) (no_attribute "lstrip") ;;
   ret (Text.lstrip payload)) device.

(** Show commands in the configuration context. *)
Definition __execute_config_show__ (device : Device) (show_command : string)
  : result string * Device :=
  let rpc_command :=
    "<CLI><Configuration>" +:+ show_command +:+ "</Configuration></CLI>" in
  (response <- (fun d => __execute_rpc__ d rpc_command) ;;
   cli <- or_raise (find response "CLI") (no_attribute "find") ;;
   conf <- or_raise (find cli "Configuration") (no_attribute "text") ;;
   payload <- or_raise (text conf) (no_attribute "lstrip") ;;
   ret (Text.lstrip payload)) device.

End Codec.

(** ** Class [IOSXR] *)

Record IOSXR : Type :=
  mkIOSXR {
    hostname : string;
    username : string;
    password : string;
    device : option Device      (* [self.device], unset until [open] *)
  }.

(** [IOSXR(hostname, username, password)] *)
Definition __init__ (hostname username password : string) : IOSXR :=
  mkIOSXR hostname username password None.

(** [self.device = d] *)
Definition with_device (self : IOSXR) (d : Device) : IOSXR :=
  mkIOSXR (hostname self) (username self) (password self) (Some d).

Definition attribute_error (item : string) : exn :=
  AttributeError ("type object 'IOSXR' has no attribute '" +:+ item +:+ "'").

(** A computation on [self.device].  While the attribute is unset the
    lookup falls through to [__getattr__], whose answer for the name
    [device] is the [AttributeError] (lemma [getattr_device] below). *)
Definition on_device {A} (f : Device -> result A * Device) : M IOSXR A :=
  fun self =>
    match device self with
    | None => (Raise (attribute_error "device"), self)
    | Some d => let (r, d') := f d in (r, with_device self d')
    end.

(** [try: m except InvalidInputError as e: handler(e.message)] *)
Definition except_InvalidInputError {S A}
    (m : M S A) (handler : string -> M S A) : M S A :=
  fun s => match m s with
           | (Raise (InvalidInputError message), s') => handler message s'
           | other => other
           end.

(** The regular expression of [__getattr__]'s wrapper under [re.DOTALL]:
    any text, then group 1, which is the banner followed by any text, then
    the closing tag of [Exec].  Both stars are greedy, so group 1 starts at
    the last banner that still has a closing tag after it and ends before
    the last closing tag. *)
Module Banner.

Fixpoint strip_prefix (p s : string) : option string :=
  match p, s with
  | EmptyString, _ => Some s
  | String a p', String b s' => if Ascii.eqb a b then strip_prefix p' s' else None
  | String _ _, EmptyString => None
  end.

(** The longest prefix of [s] that is followed by [needle]. *)
Fixpoint upto_last (needle s : string) : option string :=
  match s with
  | EmptyString =>
      if String.prefix needle EmptyString then Some EmptyString else None
  | String c s' =>
      match upto_last needle s' with
      | Some r => Some (String c r)
      | None => if String.prefix needle s then Some EmptyString else None
      end
  end.

(** [f] at the last suffix of [s] where it answers. *)
Fixpoint at_last {A} (f : string -> option A) (s : string) : option A :=
  match s with
  | EmptyString => f EmptyString
  | String _ s' =>
      match at_last f s' with
      | Some r => Some r
      | None => f s
      end
  end.

Definition banner : string := "!! IOS XR Configuration".

(** [match.group(1)], or [None] when [re.search] finds nothing *)
Definition search (response : string) : option string :=
  at_last (fun u => match strip_prefix banner u with
                    | Some rest =>
                        match upto_last "</Exec>" rest with
                        | Some tail => Some (banner +:+ tail)
                        | None => None
                        end
                    | None => None
                    end) response.

End Banner.

Definition login_patterns : list pattern :=
  [Re "\(yes\/no\)\?"; Re "password:"; PEOF].

Section Session.

Variable fromstring : string -> option Element.

(** [pexpect.spawn(command)]: a fresh child, or pexpect's exception. *)
Variable spawn : string -> result Device.

(** [open(filename).read()]; [None] stands for [IOError]. *)
Variable read_file : string -> option string.

(** [difflib.unified_diff(a, b, n=n)] as the list of the lines it yields. *)
Variable unified_diff : list string -> list string -> nat -> list string.

Definition rpc (rpc_command : string) : M IOSXR Element :=
  on_device (fun d => __execute_rpc__ fromstring d rpc_command).

(** [__getattr__(self, item)]: the closure [wrapper] acts on the session
    object it was taken from, whatever its state is when it is called. *)
Definition __getattr__ (item : string) : result (M IOSXR string) :=
  let wrapper : M IOSXR string :=
    let cmd := Text.replace "_" " " item in
    response <- on_device (fun d => __execute_show__ fromstring d cmd) ;;
    match Banner.search response with
    | Some group1 => ret group1
    | None => ret response
    end in
  if Text.startswith item "show" then Return wrapper
  else Raise (attribute_error item).

(** [open(self)].  The third component is the spawned child as [open]
    leaves it, also when an exception comes before [self.device] is set. *)
Definition open (self : IOSXR) : result unit * IOSXR * option Device :=
  match spawn ("ssh " +:+ username self +:+ "@" +:+ hostname self) with
  | Raise e => (Raise e, self, None)
  | Return spawned =>
      let handshake : M Device unit :=
        m <- expect login_patterns ;;
        index <- (if Nat.eqb (fst m) 0
                  then sendline "yes" ;;;
                       m <- expect login_patterns ;;
                       ret (fst m)
                  else ret (fst m)) ;;
        (if Nat.eqb index 1 then sendline (password self) else ret tt) ;;;
        expect [Re "#"] ;;;
        sendline "xml" ;;;
        expect [Re "XML>"] ;;;
        ret tt in
      match handshake spawned with
      | (Raise e, spawned) => (Raise e, self, Some spawned)
      | (Return _, spawned) =>
          let self := with_device self spawned in
          let (response, self) := rpc "<Lock/>" self in
          (match response with Return _ => Return tt | Raise e => Raise e end,
           self, device self)
      end
  end.

Definition close : M IOSXR unit :=
  rpc "<Unlock/>" ;;;
  on_device close_child.

Definition discard_config : M IOSXR unit :=
  rpc "<Clear/>" ;;; ret tt.

Definition load_candidate_config (filename config : option string)
  : M IOSXR unit :=
  configuration <- match filename with
                   | None => ret config
                   | Some name =>
                       content <- or_raise (read_file name) IOError ;;
                       ret (Some content)
                   end ;;
  configuration <- or_raise configuration
                     (TypeError "cannot concatenate 'str' and 'NoneType' objects") ;;
  let rpc_command :=
    "<CLI><Configuration>" +:+ configuration +:+ "</Configuration></CLI>" in
  except_InvalidInputError
    (rpc rpc_command ;;; ret tt)
    (fun message =>
       discard_config ;;;
       raise (InvalidInputError message)).

Definition compare_config : M IOSXR string :=
  show_merge <- on_device (fun d =>
                  __execute_config_show__ fromstring d "show configuration merge") ;;
  show_run <- on_device (fun d =>
                __execute_show__ fromstring d "show running-config") ;;
  let diff := unified_diff (Text.slice (Text.splitlines show_run) 2 (-2))
                           (Text.slice (Text.splitlines show_merge) 2 (-2)) 0 in
  let diff := Text.join (map (Text.replace Text.CR EmptyString) diff) in
  ret diff.

Definition compare_replace_config : M IOSXR string :=
  diff <- on_device (fun d =>
            __execute_config_show__ fromstring d "show configuration changes diff") ;;
  ret (Text.join (Text.slice (Text.splitlines diff) 2 (-2))).

Definition commit_config : M IOSXR unit :=
  rpc "<Commit/>" ;;; ret tt.

Definition commit_replace_config : M IOSXR unit :=
  rpc ("<Commit Replace=" +:+ quoted "true" +:+ "/>") ;;; ret tt.

Definition rollback : M IOSXR unit :=
  rpc "<Unlock/><Rollback><Previous>1</Previous></Rollback><Lock/>" ;;; ret tt.

End Session.

(** ** Vocabulary of the statements *)

(** The text [__execute_rpc__] hands to [sendline]. *)
Definition envelope (rpc_command : string) : string :=
  request_header +:+ rpc_command +:+ request_footer.

(** The device after one request has been sent and its answer awaited. *)
Definition exchange (d : Device) (rpc_command : string) : Device :=
  record (Expect response_pattern) (record (Sendline (envelope rpc_command)) d).

(** What the device answers to that request. *)
Definition reply (d : Device) (rpc_command : string) : outcome :=
  child d (log (exchange d rpc_command)).

(** The value of [ErrorCount] in the [ResultSummary] child. *)
Definition error_count (root : Element) : option Z :=
  match find root "ResultSummary" with
  | Some summary =>
      match get summary "ErrorCount" with
      | Some count => Text.int count
      | None => None
      end
  | None => None
  end.

(** The node whose [ErrorMsg] is reported: the first [CLI] child when the
    root has one, the root otherwise. *)
Definition error_node (root : Element) : option Element :=
  if tag_in "CLI" (map tag (children root)) then find root "CLI" else Some root.

(** The text of the [Configuration] child of the [CLI] child. *)
Definition configuration_payload (root : Element) : option string :=
  match find root "CLI" with
  | Some cli =>
      match find cli "Configuration" with
      | Some conf => text conf
      | None => None
      end
  | None => None
  end.

(** [sub] occurs in [s]. *)
Definition occurs_in (sub s : string) : Prop :=
  exists before after, s = before +:+ sub +:+ after.

(** The lines sent to a device, in order. *)
Definition sent (l : list action) : list string :=
  omap (fun a => match a with Sendline s => Some s | _ => None end) l.

(** The payload is the device's complaint about the input. *)
Definition invalid_input (root : Element) : Prop :=
  exists output,
    configuration_payload root = Some output /\
    occurs_in "Invalid input detected" output.

(** The text of the [Exec] child of the [CLI] child. *)
Definition exec_payload (root : Element) : option string :=
  match find root "CLI" with
  | Some cli =>
      match find cli "Exec" with
      | Some exec => text exec
      | None => None
      end
  | None => None
  end.

(** [shown] is [payload] without its leading whitespace, and with
    everything after it kept as it is: the payload is a run of whitespace
    of its kind followed by [shown], and [shown] does not begin with
    whitespace of that kind. *)
Definition left_trimmed (payload shown : string) : Prop :=
  exists run : list string,
    payload = Text.join run +:+ shown /\
    Forall (fun w => In w (Text.whitespace_of payload)) run /\
    forall w rest, In w (Text.whitespace_of payload) -> shown <> w +:+ rest.

(** The child as it stands when [open] is about to send the password:
    it has asked for it, at once or after the host key question. *)
Definition at_password_prompt (d0 : Device) : option Device :=
  let d1 := record (Expect login_patterns) d0 in
  match child d1 (log d1) with
  | Matched 1 _ => Some d1
  | Matched 0 _ =>
      let d2 := record (Expect login_patterns) (record (Sendline "yes") d1) in
      match child d2 (log d2) with
      | Matched 1 _ => Some d2
      | _ => None
      end
  | _ => None
  end.

(** The device rejects the password: it asks for it, and once it has it the
    shell prompt never comes, the wait ends in a timeout or at the end of
    the stream. *)
Definition rejects_password (d0 : Device) (password : string) : Prop :=
  exists d,
    at_password_prompt d0 = Some d /\
    let d' := record (Expect [Re "#"]) (record (Sendline password) d) in
    child d' (log d') = Timeout \/ child d' (log d') = Eof.

(** What the child answers when [open] waits for the login patterns. *)
Definition login_answer (d : Device) : outcome :=
  child d (log (record (Expect login_patterns) d)).

(** The child asks about the host key: the first wait ends on the first
    pattern. *)
Definition asks_host_key (d0 : Device) : bool :=
  match login_answer d0 with
  | Matched 0 _ => true
  | _ => false
  end.

(** The child asks for the password: the wait for the login patterns, the
    one after the [yes] if the host key was asked about, ends on the
    second pattern. *)
Definition asks_password (d0 : Device) : bool :=
  let d := if asks_host_key d0
           then record (Sendline "yes") (record (Expect login_patterns) d0)
           else d0 in
  match login_answer d with
  | Matched 1 _ => true
  | _ => false
  end.

(** ** Concrete devices and responses *)

Module Examples.

Definition is_expect (a : action) : bool :=
  match a with Expect _ => true | _ => false end.

(** A child that answers its n-th [expect] with the n-th reply of a
    script, and lets every later one time out. *)
Definition scripted (replies : list outcome) (l : list action) : outcome :=
  default Timeout (replies !! (length (List.filter is_expect l) - 1)%nat).

Definition fresh (replies : list outcome) : Device :=
  mkDevice (scripted replies) [].

(** A parser that knows the documents of a table. *)
Definition parser (table : list (string * Element)) (s : string)
  : option Element :=
  snd <$> List.find (fun p => String.eqb (fst p) s) table.

Definition node (tag : string) (attrs : list (string * string))
    (text : option string) (children : list Element) : Element :=
  mkElement tag (list_to_map attrs) text children.

Definition summary (count : string) : Element :=
  node "ResultSummary" [("ErrorCount", count)] None [].

Definition summary_text (count : string) : string :=
  "<ResultSummary ErrorCount=" +:+ quoted count +:+ "/>".

(** A configuration reply without errors whose payload is the device's
    complaint about the input. *)
Definition complaint : string := "% Invalid input detected at '^' marker.".

Definition invalid_text : string :=
  "<Response><CLI><Configuration>" +:+ complaint
  +:+ "</Configuration></CLI>" +:+ summary_text "0" +:+ "</Response>".

Definition invalid_root : Element :=
  node "Response" [] None
    [node "CLI" [] None [node "Configuration" [] (Some complaint) []];
     summary "0"].

(** A bare success. *)
Definition ok_text : string :=
  "<Response>" +:+ summary_text "0" +:+ "</Response>".

Definition ok_root : Element := node "Response" [] None [summary "0"].

(** An error reported on the [CLI] child. *)
Definition cli_error_text : string :=
  "<Response><CLI ErrorMsg=" +:+ quoted "bad command" +:+ "/>"
  +:+ summary_text "1" +:+ "</Response>".

Definition cli_error_root : Element :=
  node "Response" [] None
    [node "CLI" [("ErrorMsg", "bad command")] None []; summary "1"].

(** An error count without any message. *)
Definition mute_error_text : string :=
  "<Response>" +:+ summary_text "1" +:+ "</Response>".

Definition mute_error_root : Element :=
  node "Response" [] None [summary "1"].

(** A show reply of five lines, with blanks on both sides of the payload. *)
Definition five_lines : string :=
  "  one" +:+ Text.chr Text.LF +:+ "two" +:+ Text.chr Text.LF
  +:+ "three" +:+ Text.chr Text.LF
  +:+ "four" +:+ Text.chr Text.LF +:+ "five  ".

Definition exec_text : string :=
  "<Response><CLI><Exec>" +:+ five_lines +:+ "</Exec></CLI>"
  +:+ summary_text "0" +:+ "</Response>".

Definition exec_root : Element :=
  node "Response" [] None
    [node "CLI" [] None [node "Exec" [] (Some five_lines) []]; summary "0"].

Definition config_text : string :=
  "<Response><CLI><Configuration>" +:+ five_lines +:+ "</Configuration></CLI>"
  +:+ summary_text "0" +:+ "</Response>".

Definition config_root : Element :=
  node "Response" [] None
    [node "CLI" [] None [node "Configuration" [] (Some five_lines) []];
     summary "0"].

Definition parse : string -> option Element :=
  parser [(invalid_text, invalid_root); (ok_text, ok_root);
          (cli_error_text, cli_error_root);
          (mute_error_text, mute_error_root);
          (exec_text, exec_root); (config_text, config_root)].

(** A diff preview whose payload begins with two empty lines, and a show
    reply whose payload begins with a no-break space, which makes it a
    [unicode] text. *)
Definition padded_lines : string :=
  Text.chr Text.LF +:+ Text.chr Text.LF
  +:+ "A" +:+ Text.chr Text.LF +:+ "B" +:+ Text.chr Text.LF
  +:+ "C" +:+ Text.chr Text.LF +:+ "D" +:+ Text.chr Text.LF
  +:+ "E" +:+ Text.chr Text.LF.

Definition padded_text : string :=
  "<Response><CLI><Configuration>" +:+ padded_lines +:+ "</Configuration></CLI>"
  +:+ summary_text "0" +:+ "</Response>".

Definition padded_root : Element :=
  node "Response" [] None
    [node "CLI" [] None [node "Configuration" [] (Some padded_lines) []];
     summary "0"].

Definition nbsp_payload : string := Text.utf8 160 +:+ "abc ".

Definition nbsp_text : string :=
  "<Response><CLI><Exec>" +:+ nbsp_payload +:+ "</Exec></CLI>"
  +:+ summary_text "0" +:+ "</Response>".

Definition nbsp_root : Element :=
  node "Response" [] None
    [node "CLI" [] None [node "Exec" [] (Some nbsp_payload) []]; summary "0"].

Definition parse_padded : string -> option Element :=
  parser [(padded_text, padded_root); (nbsp_text, nbsp_root)].

(** No file system, no differ beyond juxtaposition: the statements that use
    these examples do not depend on either. *)
Definition no_files (name : string) : option string := None.
Definition both_sides (a b : list string) (n : nat) : list string := a ++ b.

(** The request of [load_candidate_config] for the text [interface bogus]. *)
Definition load : string :=
  "<CLI><Configuration>interface bogus</Configuration></CLI>".

Definition session (replies : list outcome) : IOSXR :=
  mkIOSXR "router" "admin" "secret" (Some (fresh replies)).

End Examples.

(** ** More concrete devices and responses *)

Module MoreExamples.

Import Examples.

(** A response without a result summary. *)
Definition bare_text : string := "<Response/>".
Definition bare_root : Element := node "Response" [] None [].

(** Replies to a show whose output is empty. *)
Definition empty_exec_text : string :=
  "<Response><CLI><Exec/></CLI>" +:+ summary_text "0" +:+ "</Response>".

Definition empty_exec_root : Element :=
  node "Response" [] None
    [node "CLI" [] None [node "Exec" [] None []]; summary "0"].

Definition empty_config_text : string :=
  "<Response><CLI><Configuration/></CLI>" +:+ summary_text "0" +:+ "</Response>".

Definition empty_config_root : Element :=
  node "Response" [] None
    [node "CLI" [] None [node "Configuration" [] None []]; summary "0"].

(** Replies of two lines. *)
Definition two_lines : string := "one" +:+ Text.chr Text.LF +:+ "two".

Definition short_exec_text : string :=
  "<Response><CLI><Exec>" +:+ two_lines +:+ "</Exec></CLI>"
  +:+ summary_text "0" +:+ "</Response>".

Definition short_exec_root : Element :=
  node "Response" [] None
    [node "CLI" [] None [node "Exec" [] (Some two_lines) []]; summary "0"].

Definition short_config_text : string :=
  "<Response><CLI><Configuration>" +:+ two_lines +:+ "</Configuration></CLI>"
  +:+ summary_text "0" +:+ "</Response>".

Definition short_config_root : Element :=
  node "Response" [] None
    [node "CLI" [] None [node "Configuration" [] (Some two_lines) []];
     summary "0"].

Definition parse : string -> option Element :=
  parser [(bare_text, bare_root);
          (empty_exec_text, empty_exec_root);
          (empty_config_text, empty_config_root);
          (short_exec_text, short_exec_root);
          (short_config_text, short_config_root);
          (ok_text, ok_root); (cli_error_text, cli_error_root);
          (exec_text, exec_root); (config_text, config_root)].

(** A file system with one file. *)
Definition one_file (name : string) : option string :=
  if String.eqb name "candidate.cfg" then Some "interface bogus" else None.

(** A login that asks for the password and goes through to the XML mode;
    the reply to the [<Lock/>] request comes last, if there is one. *)
Definition login (lock : list outcome) : Device :=
  fresh ([Matched 1 "password:"; Matched 0 "#"; Matched 0 "XML>"] ++ lock).

Definition router : IOSXR := __init__ "router" "admin" "secret".

End MoreExamples.

(** * Properties *)

(** One step of symbolic execution: unfold the monad, then split on a
    scrutinee that is not itself waiting for another one. *)
Ltac unfold_monad :=
  cbv beta iota zeta delta
    [bind ret raise or_raise sendline expect close_child on_device
     except_InvalidInputError].

Ltac split_scrutinee :=
  match goal with
  | |- context [match ?x with _ => _ end] =>
      lazymatch x with
      | context [match _ with _ => _ end] => fail
      | _ => destruct x eqn:?
      end
  end.

Ltac execute := unfold_monad; repeat (split_scrutinee; unfold_monad).

(** ** Text *)

Section TextFacts.

Import Text.

Lemma append_cons (c : ascii) (s t : string) :
  String c s +:+ t = String c (s +:+ t).
Proof. reflexivity. Qed.

Lemma append_empty_r (s : string) : s +:+ EmptyString = s.
Proof. induction s as [|c s IH]; [done | by rewrite append_cons, IH]. Qed.

Lemma append_assoc (a b c : string) : (a +:+ b) +:+ c = a +:+ b +:+ c.
Proof. induction a as [|x a IH]; [done | by rewrite !append_cons, IH]. Qed.

Lemma prefix_spec (p s : string) :
  String.prefix p s = true <-> exists t, s = p +:+ t.
Proof.
  revert s. induction p as [|a p IH]; intros s.
  - destruct s; simpl; split; eauto.
  - destruct s as [|b s]; simpl.
    + split; [done | intros [t Ht]; discriminate].
    + destruct (Ascii.ascii_dec a b) as [->|Hne].
      * rewrite IH. split; intros [t Ht]; exists t; rewrite ?append_cons in *; congruence.
      * split; [done | intros [t Ht]; rewrite append_cons in Ht; congruence].
Qed.

Lemma contains_spec (sub s : string) :
  contains sub s = true <-> occurs_in sub s.
Proof.
  unfold occurs_in. induction s as [|c s IH].
  - cbn [contains]. rewrite orb_false_r, prefix_spec. split.
    + intros [t Ht]. exists EmptyString, t. done.
    + intros ([|x before] & after & H); [|discriminate].
      exists after. done.
  - cbn [contains]. rewrite orb_true_iff, prefix_spec, IH. split.
    + intros [[t Ht] | (before & after & H)].
      * exists EmptyString, t. done.
      * exists (String c before), after. rewrite append_cons. by rewrite H.
    + intros ([|x before] & after & H).
      * left. by exists after.
      * right. exists before, after. rewrite append_cons in H. congruence.
Qed.



Lemma length_append (a b : string) :
  String.length (a +:+ b) = (String.length a + String.length b)%nat.
Proof.
  induction a as [|c a IH]; [done |].
  rewrite append_cons. cbn [String.length]. by rewrite IH.
Qed.

Lemma after_spec (p s rest : string) : after p s = Some rest <-> s = p +:+ rest.
Proof.
  revert s. induction p as [|a p IH]; intros s.
  - cbn [after]. split; [by intros [= ->] | by intros ->].
  - destruct s as [|b s]; cbn [after]; [done |].
    rewrite append_cons. destruct (Ascii.eqb a b) eqn:Hab.
    + apply Ascii.eqb_eq in Hab as ->. rewrite IH.
      split; [by intros -> | by intros [= ->]].
    + apply Ascii.eqb_neq in Hab. split; [done | intros [= <- _]; done].
Qed.

Lemma first_prefix_Some (ws : list string) (s w rest : string) :
  first_prefix ws s = Some (w, rest) -> In w ws /\ s = w +:+ rest.
Proof.
  induction ws as [|v ws IH]; cbn [first_prefix]; [done |].
  destruct (after v s) as [r|] eqn:Hafter.
  - intros [= <- <-]. split; [by left | by apply after_spec].
  - intros H. destruct (IH H) as [Hin Heq]. split; [by right | done].
Qed.

Lemma first_prefix_None (ws : list string) (s : string) :
  first_prefix ws s = None ->
  forall w rest, In w ws -> s <> w +:+ rest.
Proof.
  induction ws as [|v ws IH]; cbn [first_prefix]; [by intros _ w rest [] |].
  destruct (after v s) as [r|] eqn:Hafter; [done |].
  intros H w rest [<- | Hin].
  - intros Heq. apply after_spec in Heq. congruence.
  - by apply IH.
Qed.

Lemma first_prefix_empty (ws : list string) :
  Forall (fun w => w <> EmptyString) ws -> first_prefix ws EmptyString = None.
Proof.
  induction 1 as [|w ws Hw _ IH]; [done |].
  cbn [first_prefix]. by destruct w.
Qed.

Lemma whitespace_nonempty (s : string) :
  Forall (fun w => w <> EmptyString) (whitespace_of s).
Proof.
  unfold whitespace_of. destruct (is_unicode s); vm_compute;
    repeat constructor; discriminate.
Qed.

Lemma linebreaks_nonempty (s : string) :
  Forall (fun w => w <> EmptyString) (linebreaks_of s).
Proof.
  unfold linebreaks_of. destruct (is_unicode s); vm_compute;
    repeat constructor; discriminate.
Qed.

Lemma rest_is_shorter (w rest : string) (n : nat) :
  w <> EmptyString -> (String.length (w +:+ rest) <= S n)%nat ->
  (String.length rest <= n)%nat.
Proof.
  intros Hw. rewrite length_append. destruct w; [done |].
  cbn [String.length]. lia.
Qed.

Lemma join_nil : join [] = EmptyString.
Proof. reflexivity. Qed.

Lemma join_cons (x : string) (l : list string) : join (x :: l) = x +:+ join l.
Proof.
  unfold join. destruct l as [|y l]; cbn [String.concat]; [by rewrite append_empty_r | done].
Qed.

Lemma lstrip_from_spec (blanks : list string) :
  Forall (fun w => w <> EmptyString) blanks ->
  forall n s,
    (String.length s <= n)%nat ->
    exists run,
      s = join run +:+ lstrip_from n blanks s /\
      Forall (fun w => In w blanks) run /\
      forall w rest, In w blanks -> lstrip_from n blanks s <> w +:+ rest.
Proof.
  intros Hblanks. induction n as [|n IH]; intros s Hlen.
  - destruct s; [| cbn [String.length] in Hlen; lia].
    exists []. split; [done |]. split; [done |].
    apply first_prefix_None. by apply first_prefix_empty.
  - cbn [lstrip_from].
    destruct (first_prefix blanks s) as [[w rest]|] eqn:Hfirst.
    + apply first_prefix_Some in Hfirst as [Hin ->].
      assert (w <> EmptyString) as Hw
        by (by apply (proj1 (List.Forall_forall _ _) Hblanks)).
      destruct (IH rest (rest_is_shorter w rest n Hw Hlen))
        as (run & Hrest & Hrun & Hstop).
      exists (w :: run). split; [| split; [by constructor | done]].
      rewrite join_cons, append_assoc. by rewrite <- Hrest.
    + exists []. split; [done |]. split; [done |].
      by apply first_prefix_None.
Qed.

(** [lstrip] removes a run of whitespace from the front, stops at the
    first character that is none and leaves everything from there on as
    it is. *)
Lemma lstrip_spec (s : string) : left_trimmed s (lstrip s).
Proof.
  apply (lstrip_from_spec (whitespace_of s) (whitespace_nonempty s)
           (String.length s) s).
  lia.
Qed.


Lemma join_app (l1 l2 : list string) : join (l1 ++ l2) = join l1 +:+ join l2.
Proof.
  induction l1 as [|x l1 IH]; [done |].
  rewrite <- app_comm_cons, !join_cons, IH, append_assoc. done.
Qed.

(** [splitlines(1)] keeps every character: joining the lines gives the
    text back. *)
Lemma join_splitlines_from (breaks : list string) :
  Forall (fun w => w <> EmptyString) breaks ->
  forall n s cur,
    (String.length s <= n)%nat ->
    join (splitlines_from n breaks cur s) = cur +:+ s.
Proof.
  intros Hbreaks.
  assert (forall cur,
            join (match cur with EmptyString => [] | _ => [cur] end) = cur)
    as Hlast.
  { intros [|c cur]; [done |]. by rewrite join_cons, join_nil, append_empty_r. }
  induction n as [|n IH]; intros s cur Hlen.
  - destruct s; [| cbn [String.length] in Hlen; lia].
    cbn [splitlines_from]. by rewrite Hlast, append_empty_r.
  - destruct s as [|c s]; cbn [splitlines_from].
    { by rewrite Hlast, append_empty_r. }
    destruct (first_prefix breaks (String c s)) as [[b rest]|] eqn:Hfirst.
    + apply first_prefix_Some in Hfirst as [Hin Heq].
      assert (b <> EmptyString) as Hb
        by (by apply (proj1 (List.Forall_forall _ _) Hbreaks)).
      rewrite Heq in Hlen. rewrite join_cons, IH, Heq.
      * by rewrite append_assoc.
      * by apply (rest_is_shorter b rest n Hb).
    + rewrite IH; [| cbn [String.length] in Hlen; lia].
      by rewrite append_assoc.
Qed.

Lemma join_splitlines (s : string) : join (splitlines s) = s.
Proof.
  apply (join_splitlines_from (linebreaks_of s) (linebreaks_nonempty s)
           (String.length s) s EmptyString).
  lia.
Qed.

Lemma list_ascii_append (a b : string) :
  String.list_ascii_of_string (a +:+ b)
  = String.list_ascii_of_string a ++ String.list_ascii_of_string b.
Proof.
  induction a as [|c a IH]; [done |].
  rewrite append_cons. cbn [String.list_ascii_of_string]. by rewrite IH.
Qed.

(** Replacing a character by nothing deletes its occurrences and keeps
    every other character in place. *)
Lemma replace_deletes (old : ascii) (s : string) :
  String.list_ascii_of_string (replace old EmptyString s)
  = List.filter (fun c => negb (Ascii.eqb c old)) (String.list_ascii_of_string s).
Proof.
  induction s as [|c s IH]; [done |].
  cbn [replace String.list_ascii_of_string List.filter].
  rewrite list_ascii_append, IH.
  destruct (Ascii.eqb c old); reflexivity.
Qed.

Lemma join_replace_deletes (old : ascii) (l : list string) :
  String.list_ascii_of_string (join (map (replace old EmptyString) l))
  = List.filter (fun c => negb (Ascii.eqb c old))
      (String.list_ascii_of_string (join l)).
Proof.
  induction l as [|x l IH]; [done |].
  cbn [map]. rewrite !join_cons, !list_ascii_append, List.filter_app.
  by rewrite IH, replace_deletes.
Qed.

(** On four lines or more, [l[2:-2]] is [l] without its first two and its
    last two elements. *)
Lemma slice_2_m2 (l : list string) :
  (4 <= length l)%nat ->
  exists a b mid c d,
    l = [a; b] ++ mid ++ [c; d] /\ slice l 2 (-2) = mid.
Proof.
  intros Hlen.
  destruct l as [|a [|b rest]]; [simpl in Hlen; lia .. |].
  cbn [length] in Hlen.
  set (k := (length rest - 2)%nat).
  assert (Hk : length (drop k rest) = 2%nat) by (rewrite length_drop; lia).
  destruct (drop k rest) as [|c [|d [|? ?]]] eqn:Hdrop; try discriminate.
  exists a, b, (take k rest), c, d. split.
  - cbn [app]. by rewrite <- Hdrop, take_drop.
  - unfold slice. cbn [length].
    replace (Z.to_nat _) with k.
    2:{ unfold k. cbn [Z.ltb Z.compare]. lia. }
    replace (Z.to_nat _) with 2%nat by (cbn [Z.ltb Z.compare]; lia).
    reflexivity.
Qed.

(** Below four lines nothing is left of [l[2:-2]]. *)
Lemma slice_2_m2_short (l : list string) :
  (length l < 4)%nat -> slice l 2 (-2) = [].
Proof.
  destruct l as [|a [|b [|c [|d l]]]]; try reflexivity.
  cbn [length]. lia.
Qed.

Example lstrip_example :
  lstrip ("  " +:+ chr LF +:+ "a b ") = "a b ".
Proof. reflexivity. Qed.

Example lstrip_unicode_example :
  lstrip (utf8 160 +:+ " abc" +:+ utf8 160) = "abc" +:+ utf8 160 /\
  lstrip (chr "028" +:+ "abc") = chr "028" +:+ "abc" /\
  lstrip (chr "028" +:+ "abc" +:+ utf8 233) = "abc" +:+ utf8 233.
Proof. repeat split. Qed.

Example splitlines_unicode_example :
  splitlines ("a" +:+ utf8 8232 +:+ "b" +:+ chr LF +:+ "c" +:+ utf8 133)
  = ["a" +:+ utf8 8232; "b" +:+ chr LF; "c" +:+ utf8 133] /\
  splitlines ("a" +:+ chr "011" +:+ "b") = ["a" +:+ chr "011" +:+ "b"].
Proof. split; reflexivity. Qed.

Example int_examples :
  int " 12 " = Some 12 /\ int "-3" = Some (-3) /\ int "007" = Some 7 /\
  int "1x" = None /\ int "+" = None /\ int " " = None.
Proof. repeat split. Qed.

Example splitlines_example :
  splitlines ("a" +:+ chr LF +:+ "b" +:+ chr CR +:+ chr LF +:+ chr CR +:+ "c")
  = ["a" +:+ chr LF; "b" +:+ chr CR +:+ chr LF; chr CR; "c"].
Proof. reflexivity. Qed.

Example slice_example :
  slice ["a"; "b"; "c"; "d"; "e"] 2 (-2) = ["c"].
Proof. reflexivity. Qed.

Example contains_example :
  contains "Invalid input detected" Examples.complaint = true /\
  contains "Invalid input detected" "Invalid input" = false.
Proof. split; reflexivity. Qed.

Example banner_example :
  Banner.search "Mon Jan 1 !! IOS XR Configuration 5.1 end</Exec> rest"
  = Some "!! IOS XR Configuration 5.1 end" /\
  Banner.search "!! IOS XR Configuration 5.1" = None.
Proof. split; reflexivity. Qed.

End TextFacts.

(** ** The RPC codec *)

Lemma child_record (a : action) (d : Device) : child (record a d) = child d.
Proof. reflexivity. Qed.

Lemma log_record (a : action) (d : Device) : log (record a d) = log d ++ [a].
Proof. reflexivity. Qed.

Lemma sent_record (a : action) (d : Device) :
  sent (log (record a d))
  = sent (log d) ++ match a with Sendline s => [s] | _ => [] end.
Proof.
  rewrite log_record. unfold sent. rewrite omap_app. by destruct a.
Qed.

(** One exchange sends one line, the envelope. *)
Lemma sent_exchange (d : Device) (rpc_command : string) :
  sent (log (exchange d rpc_command)) = sent (log d) ++ [envelope rpc_command].
Proof.
  unfold exchange. rewrite !sent_record. by rewrite app_nil_r.
Qed.

Section CodecFacts.

Variable fromstring : string -> option Element.

Lemma tag_in_find (e : Element) (t : string) :
  tag_in t (map tag (children e)) = true <-> is_Some (find e t).
Proof.
  unfold tag_in, find. induction (children e) as [|x l IH]; cbn [map existsb List.find].
  - split; [done | by intros [? ?]].
  - rewrite (String.eqb_sym t). destruct (String.eqb (tag x) t); cbn [orb].
    + split; [by eexists | done].
    + apply IH.
Qed.

Lemma tag_in_false_find (e : Element) (t : string) :
  tag_in t (map tag (children e)) = false -> find e t = None.
Proof.
  intros H. destruct (find e t) eqn:Hf; [| done].
  assert (is_Some (find e t)) as Hs by (by rewrite Hf).
  apply tag_in_find in Hs. congruence.
Qed.

(** Whatever the answer, [__execute_rpc__] leaves the device one exchange
    further: the envelope sent, the response awaited. *)
Lemma execute_rpc_exchange (d : Device) (rpc_command : string) :
  snd (__execute_rpc__ fromstring d rpc_command) = exchange d rpc_command.
Proof.
  unfold __execute_rpc__. execute; reflexivity.
Qed.

(** What [__execute_rpc__] makes of a response that parses and carries an
    error count. *)
Lemma execute_rpc_answer (d : Device) (rpc_command : string)
    (i : nat) (response : string) (root : Element) (n : Z) :
  reply d rpc_command = Matched i response ->
  fromstring response = Some root ->
  error_count root = Some n ->
  fst (__execute_rpc__ fromstring d rpc_command) =
    if 0 <? n then
      match error_node root with
      | Some node =>
          match get node "ErrorMsg" with
          | Some msg =>
              Raise (XMLCLIError (msg +:+ Text.chr Text.LF +:+ "Original call was: "
                                  +:+ envelope rpc_command))
          | None =>
              Raise (TypeError "unsupported operand type(s) for +=: 'NoneType' and 'str'")
          end
      | None => Raise (no_attribute "get")
      end
    else
      match configuration_payload root with
      | Some output =>
          if Text.contains "Invalid input detected" output
          then Raise (InvalidInputError
                        ("Invalid input entered:" +:+ Text.chr Text.LF +:+ output))
          else Return root
      | None => Return root
      end.
Proof.
  unfold reply, exchange, error_count, error_node, configuration_payload.
  intros Hreply Hparse Hcount.
  unfold __execute_rpc__. fold (envelope rpc_command).
  unfold_monad. rewrite !child_record, Hreply. unfold_monad. cbn [snd].
  rewrite Hparse.
  unfold_monad.
  destruct (find root "ResultSummary") as [summary|]; [| done].
  destruct (get summary "ErrorCount") as [count|]; [| done].
  unfold_monad. rewrite Hcount. unfold_monad.
  destruct (0 <? n).
  - destruct (tag_in "CLI" (map tag (children root))) eqn:Hcli.
    + destruct (find root "CLI") as [cli|]; unfold_monad; [| done].
      destruct (get cli "ErrorMsg"); reflexivity.
    + unfold_monad. destruct (get root "ErrorMsg"); reflexivity.
  - destruct (tag_in "CLI" (map tag (children root))) eqn:Hcli.
    + destruct (find root "CLI") as [cli|] eqn:Hfind; unfold_monad.
      2:{ apply tag_in_find in Hcli. rewrite Hfind in Hcli.
          by destruct Hcli. }
      destruct (tag_in "Configuration" (map tag (children cli))) eqn:Hconf.
      * destruct (find cli "Configuration") as [conf|] eqn:Hfc; unfold_monad.
        2:{ apply tag_in_find in Hconf. rewrite Hfc in Hconf.
            by destruct Hconf. }
        destruct (text conf) as [output|]; unfold_monad; [| done].
        destruct (Text.contains _ output); reflexivity.
      * apply tag_in_false_find in Hconf. rewrite Hconf. reflexivity.
    + apply tag_in_false_find in Hcli. rewrite Hcli. reflexivity.
Qed.



(** C1, as the code has it: a response whose [ErrorCount] is 0 is returned
    to the caller as the parsed tree, except when the [Configuration] child
    of its [CLI] child carries text containing "Invalid input detected";
    then [InvalidInputError] is raised with that text. *)
Theorem execute_rpc_zero_errors (d : Device) (rpc_command : string)
    (i : nat) (response : string) (root : Element) :
  reply d rpc_command = Matched i response ->
  fromstring response = Some root ->
  error_count root = Some 0 ->
  (~ invalid_input root ->
   __execute_rpc__ fromstring d rpc_command
   = (Return root, exchange d rpc_command)) /\
  (forall output,
     configuration_payload root = Some output ->
     occurs_in "Invalid input detected" output ->
     __execute_rpc__ fromstring d rpc_command
     = (Raise (InvalidInputError
                 ("Invalid input entered:" +:+ Text.chr Text.LF +:+ output)),
        exchange d rpc_command)).
Proof.
  intros Hreply Hparse Hcount.
  pose proof (execute_rpc_answer d rpc_command i response root 0
                Hreply Hparse Hcount) as Hfst.
  pose proof (execute_rpc_exchange d rpc_command) as Hsnd.
  destruct (__execute_rpc__ fromstring d rpc_command) as [r d'].
  cbn [fst snd] in Hfst, Hsnd. subst d'.
  change (0 <? 0) with false in Hfst. cbv iota in Hfst.
  split.
  - intros Hvalid. f_equal. rewrite Hfst.
    destruct (configuration_payload root) as [output|] eqn:Hpay; [| done].
    destruct (Text.contains _ output) eqn:Hin; [| done].
    destruct Hvalid. exists output. split; [done |].
    by apply contains_spec.
  - intros output Hpay Hin. f_equal. rewrite Hfst, Hpay.
    apply contains_spec in Hin. by rewrite Hin.
Qed.


(** C5: the text handed to the device is the fixed header, the request body
    as it was given, and the fixed footer; [__execute_rpc__] sends it once,
    whatever the device then answers. *)
Theorem execute_rpc_sends_envelope (d : Device) (body : string) :
  log (snd (__execute_rpc__ fromstring d body))
  = log d ++
    [Sendline
       (("<?xml version=" +:+ quoted "1.0" +:+ " encoding=" +:+ quoted "UTF-8"
         +:+ "?><Request MajorVersion=" +:+ quoted "1"
         +:+ " MinorVersion=" +:+ quoted "0" +:+ ">")
        +:+ body +:+ "</Request>");
     Expect response_pattern].
Proof.
  rewrite execute_rpc_exchange. unfold exchange.
  rewrite !log_record, <- app_assoc. reflexivity.
Qed.

(** C8: when the error count is positive and the node that should carry the
    message has no [ErrorMsg] attribute, building the message fails with a
    [TypeError], which is none of the documented error kinds, and no
    [XMLCLIError] is raised. *)
Theorem execute_rpc_missing_error_message (d : Device) (rpc_command : string)
    (i : nat) (response : string) (root node : Element) (n : Z) :
  reply d rpc_command = Matched i response ->
  fromstring response = Some root ->
  error_count root = Some n ->
  0 < n ->
  error_node root = Some node ->
  get node "ErrorMsg" = None ->
  exists e,
    __execute_rpc__ fromstring d rpc_command = (Raise e, exchange d rpc_command) /\
    e = TypeError "unsupported operand type(s) for +=: 'NoneType' and 'str'" /\
    taxonomy e = None.
Proof.
  intros Hreply Hparse Hcount Hpos Hnode Hmsg.
  pose proof (execute_rpc_answer d rpc_command i response root n
                Hreply Hparse Hcount) as Hfst.
  pose proof (execute_rpc_exchange d rpc_command) as Hsnd.
  destruct (__execute_rpc__ fromstring d rpc_command) as [r d'].
  cbn [fst snd] in Hfst, Hsnd. subst d'.
  apply Z.ltb_lt in Hpos. rewrite Hpos, Hnode, Hmsg in Hfst. subst r.
  eexists. split; [reflexivity |]. split; reflexivity.
Qed.

(** A response without errors and without the complaint about the input
    is what [__execute_rpc__] returns. *)
Lemma execute_rpc_returns (d : Device) (rpc_command : string)
    (i : nat) (response : string) (root : Element) (n : Z) :
  reply d rpc_command = Matched i response ->
  fromstring response = Some root ->
  error_count root = Some n ->
  n <= 0 ->
  ~ invalid_input root ->
  __execute_rpc__ fromstring d rpc_command = (Return root, exchange d rpc_command).
Proof.
  intros Hreply Hparse Hcount Hn Hvalid.
  pose proof (execute_rpc_answer d rpc_command i response root n
                Hreply Hparse Hcount) as Hfst.
  pose proof (execute_rpc_exchange d rpc_command) as Hsnd.
  destruct (__execute_rpc__ fromstring d rpc_command) as [r d'].
  cbn [fst snd] in Hfst, Hsnd. subst d'. f_equal. rewrite Hfst.
  apply Z.ltb_ge in Hn. rewrite Hn.
  destruct (configuration_payload root) as [output|] eqn:Hpay; [| done].
  destruct (Text.contains _ output) eqn:Hin; [| done].
  destruct Hvalid. exists output. split; [done |]. by apply contains_spec.
Qed.

(** C7, as the code has it: for a response whose error count is not
    positive, whose [Configuration] payload is not the complaint about the
    input, and whose [Exec], respectively [Configuration], node has text,
    [__execute_show__] and [__execute_config_show__] return that text cut
    at the left only: the leading whitespace of the text's kind is gone
    and the rest, trailing whitespace included, is the payload's. *)
Theorem show_left_trims (d : Device) (command payload : string)
    (i : nat) (response : string) (root : Element) (n : Z) :
  fromstring response = Some root ->
  error_count root = Some n ->
  n <= 0 ->
  (let request := "<CLI><Exec>" +:+ command +:+ "</Exec></CLI>" in
   reply d request = Matched i response ->
   ~ invalid_input root ->
   exec_payload root = Some payload ->
   exists shown,
     __execute_show__ fromstring d command = (Return shown, exchange d request) /\
     left_trimmed payload shown) /\
  (let request :=
     "<CLI><Configuration>" +:+ command +:+ "</Configuration></CLI>" in
   reply d request = Matched i response ->
   configuration_payload root = Some payload ->
   ~ occurs_in "Invalid input detected" payload ->
   exists shown,
     __execute_config_show__ fromstring d command
     = (Return shown, exchange d request) /\
     left_trimmed payload shown).
Proof.
  intros Hparse Hcount Hn. split; intros request Hreply.
  - intros Hvalid Hpayload. exists (Text.lstrip payload).
    split; [| apply lstrip_spec].
    unfold __execute_show__, exec_payload in *. unfold_monad. fold request.
    rewrite (execute_rpc_returns d request i response root n
               Hreply Hparse Hcount Hn Hvalid).
    destruct (find root "CLI") as [cli|]; [| done].
    destruct (find cli "Exec") as [exec|]; [| done].
    unfold_monad. by rewrite Hpayload.
  - intros Hpayload Hclean. exists (Text.lstrip payload).
    split; [| apply lstrip_spec].
    assert (~ invalid_input root) as Hvalid.
    { intros (output & Hout & Hocc). congruence. }
    unfold __execute_config_show__. unfold_monad. fold request.
    rewrite (execute_rpc_returns d request i response root n
               Hreply Hparse Hcount Hn Hvalid).
    unfold configuration_payload in Hpayload.
    destruct (find root "CLI") as [cli|]; [| done].
    destruct (find cli "Configuration") as [conf|]; [| done].
    unfold_monad. by rewrite Hpayload.
Qed.

End CodecFacts.

(** ** The session *)

Lemma append_inj_l (a x y : string) : a +:+ x = a +:+ y -> x = y.
Proof.
  induction a as [|c a IH]; [done |].
  rewrite !append_cons. intros H. apply IH. congruence.
Qed.

Section SessionFacts.

Variable fromstring : string -> option Element.
Variable spawn : string -> result Device.
Variable read_file : string -> option string.
Variable unified_diff : list string -> list string -> nat -> list string.

Lemma on_device_set {A} (f : Device -> result A * Device)
    (self : IOSXR) (d : Device) :
  device self = Some d ->
  on_device f self = (fst (f d), with_device self (snd (f d))).
Proof. intros H. unfold on_device. rewrite H. by destruct (f d). Qed.

Lemma rpc_set (self : IOSXR) (d : Device) (rpc_command : string) :
  device self = Some d ->
  rpc fromstring rpc_command self
  = (fst (__execute_rpc__ fromstring d rpc_command),
     with_device self (exchange d rpc_command)).
Proof.
  intros H. unfold rpc. rewrite (on_device_set _ self d H).
  by rewrite execute_rpc_exchange.
Qed.

(** Until [open] has set [self.device], reading it ends in [__getattr__],
    which has no attribute of that name to offer. *)
Lemma getattr_device :
  __getattr__ fromstring "device" = Raise (attribute_error "device").
Proof. reflexivity. Qed.

(** C9: with neither a file name nor a configuration text,
    [load_candidate_config] raises a [TypeError], which is none of the
    documented error kinds, while building the request; the session and its
    device are as before, nothing has been sent. *)
Theorem load_candidate_config_without_source (self : IOSXR) :
  exists e,
    load_candidate_config fromstring read_file None None self = (Raise e, self) /\
    e = TypeError "cannot concatenate 'str' and 'NoneType' objects" /\
    taxonomy e = None.
Proof. eexists. split; [reflexivity |]. split; reflexivity. Qed.

(** The request of [load_candidate_config] is not the one of
    [discard_config]. *)
Lemma load_is_not_clear (configuration : string) :
  envelope ("<CLI><Configuration>" +:+ configuration +:+ "</Configuration></CLI>")
  <> envelope "<Clear/>".
Proof.
  unfold envelope. intros H. apply append_inj_l in H.
  vm_compute in H. discriminate.
Qed.

(** C2, as the code has it: when the load RPC raises [InvalidInputError],
    [load_candidate_config] sends one [<Clear/>] RPC, right after the load
    and before any error reaches the caller.  If that RPC returns, the
    [InvalidInputError] is raised again with its message; if it raises, its
    own exception is the one the caller gets. *)
Theorem load_candidate_config_discards (self : IOSXR) (d d1 : Device)
    (filename config : option string) (configuration message : string) :
  device self = Some d ->
  (filename = None /\ config = Some configuration) \/
  (exists name, filename = Some name /\ read_file name = Some configuration) ->
  let load := "<CLI><Configuration>" +:+ configuration +:+ "</Configuration></CLI>" in
  __execute_rpc__ fromstring d load = (Raise (InvalidInputError message), d1) ->
  let d2 := exchange d1 "<Clear/>" in
  load_candidate_config fromstring read_file filename config self
  = (match fst (__execute_rpc__ fromstring d1 "<Clear/>") with
     | Return _ => Raise (InvalidInputError message)
     | Raise e => Raise e
     end, with_device self d2) /\
  sent (log d2) = sent (log d) ++ [envelope load; envelope "<Clear/>"] /\
  envelope load <> envelope "<Clear/>".
Proof.
  intros Hdev Hsource load Hload d2.
  assert (d1 = exchange d load) as Hd1.
  { pose proof (execute_rpc_exchange fromstring d load) as H.
    by rewrite Hload in H. }
  split; [| split].
  - unfold load_candidate_config.
    assert (forall self',
      (match filename with
       | None => ret config
       | Some name => content <- or_raise (read_file name) IOError ;;
                      ret (Some content)
       end : M IOSXR (option string)) self' = (Return (Some configuration), self'))
      as Hconf.
    { intros self'. destruct Hsource as [[-> ->] | (name & -> & Hread)];
        [done |]. unfold_monad. by rewrite Hread. }
    unfold bind at 1. rewrite Hconf. unfold bind at 1. cbn [or_raise ret].
    fold load. unfold except_InvalidInputError, discard_config.
    unfold bind at 1. rewrite (rpc_set self d load Hdev), Hload. cbn [fst].
    unfold bind at 1. unfold bind at 1.
    rewrite (rpc_set (with_device self (exchange d load)) (exchange d load)
               "<Clear/>" eq_refl).
    subst d1. fold d2.
    destruct (fst (__execute_rpc__ fromstring (exchange d load) "<Clear/>"));
      reflexivity.
  - subst d2 d1. by rewrite !sent_exchange, <- app_assoc.
  - apply load_is_not_clear.
Qed.

(** C6, as the code has it: the lines are those of the texts the show
    helpers return, the payloads without their leading whitespace.  With
    four lines or more on each side, [compare_config] hands the
    differ the running configuration and the merge preview without their
    first two and last two lines, asks for zero lines of context, and
    returns the joined diff with its carriage returns deleted and nothing
    else changed; [compare_replace_config] returns the device's diff text
    without its first two and last two lines. *)
Theorem compare_trims_two_lines (self : IOSXR) (d : Device) :
  device self = Some d ->
  (forall d1 d2 show_merge show_run,
     __execute_config_show__ fromstring d "show configuration merge"
     = (Return show_merge, d1) ->
     __execute_show__ fromstring d1 "show running-config"
     = (Return show_run, d2) ->
     (4 <= length (Text.splitlines show_run))%nat ->
     (4 <= length (Text.splitlines show_merge))%nat ->
     exists r1 r2 run r3 r4 m1 m2 merge m3 m4 diff,
       Text.splitlines show_run = [r1; r2] ++ run ++ [r3; r4] /\
       Text.splitlines show_merge = [m1; m2] ++ merge ++ [m3; m4] /\
       compare_config fromstring unified_diff self
       = (Return diff, with_device self d2) /\
       String.list_ascii_of_string diff
       = List.filter (fun c => negb (Ascii.eqb c Text.CR))
           (String.list_ascii_of_string (Text.join (unified_diff run merge 0)))) /\
  (forall d1 changes,
     __execute_config_show__ fromstring d "show configuration changes diff"
     = (Return changes, d1) ->
     (4 <= length (Text.splitlines changes))%nat ->
     exists l1 l2 diff l3 l4,
       changes = l1 +:+ l2 +:+ diff +:+ l3 +:+ l4 /\
       Text.splitlines changes = [l1; l2] ++ Text.slice (Text.splitlines changes) 2 (-2) ++ [l3; l4] /\
       compare_replace_config fromstring self
       = (Return diff, with_device self d1)).
Proof.
  intros Hdev. split.
  - intros d1 d2 show_merge show_run Hmerge Hrun Hlen_run Hlen_merge.
    destruct (slice_2_m2 _ Hlen_run) as (r1 & r2 & run & r3 & r4 & Hr & Hrs).
    destruct (slice_2_m2 _ Hlen_merge) as (m1 & m2 & merge & m3 & m4 & Hm & Hms).
    exists r1, r2, run, r3, r4, m1, m2, merge, m3, m4.
    eexists. split; [exact Hr |]. split; [exact Hm |]. split.
    + unfold compare_config. unfold bind at 1.
      rewrite (on_device_set _ self d Hdev), Hmerge. cbn [fst snd].
      unfold bind at 1.
      rewrite (on_device_set _ (with_device self d1) d1 eq_refl), Hrun.
      cbn [fst snd]. rewrite Hrs, Hms. reflexivity.
    + apply join_replace_deletes.
  - intros d1 changes Hchanges Hlen.
    destruct (slice_2_m2 _ Hlen) as (l1 & l2 & mid & l3 & l4 & Hl & Hs).
    exists l1, l2, (Text.join mid), l3, l4. split; [| split].
    + rewrite <- (join_splitlines changes) at 1. rewrite Hl.
      rewrite !join_app, !join_cons, join_nil, !append_empty_r.
      by rewrite !append_assoc.
    + by rewrite Hs.
    + unfold compare_replace_config. unfold bind at 1.
      rewrite (on_device_set _ self d Hdev), Hchanges. cbn [fst snd].
      by rewrite Hs.
Qed.

Lemma execute_show_exchange (d : Device) (command : string) :
  snd (__execute_show__ fromstring d command)
  = exchange d ("<CLI><Exec>" +:+ command +:+ "</Exec></CLI>").
Proof.
  unfold __execute_show__. unfold_monad.
  pose proof (execute_rpc_exchange fromstring d
                ("<CLI><Exec>" +:+ command +:+ "</Exec></CLI>")) as H.
  destruct (__execute_rpc__ _ _ _) as [[root|e] d']; cbn [snd] in H; subst d';
    [| done].
  repeat (split_scrutinee; unfold_monad); reflexivity.
Qed.

(** Replacing a character by another one changes these characters and no
    other. *)
Lemma replace_maps (old new : ascii) (s : string) :
  String.list_ascii_of_string (Text.replace old (Text.chr new) s)
  = map (fun c => if Ascii.eqb c old then new else c)
      (String.list_ascii_of_string s).
Proof.
  induction s as [|c s IH]; [done |].
  cbn [Text.replace String.list_ascii_of_string map].
  rewrite list_ascii_append, IH. by destruct (Ascii.eqb c old).
Qed.

(** C10: [__getattr__], which Python calls for the names that are not
    defined attributes, raises [AttributeError] for a name that does not
    begin with [show]; for a name that does, it returns a callable which,
    called on an open session, sends the name with its underscores turned
    into spaces as a show command, and returns what the show returns, cut
    to the configuration banner when there is one. *)
Theorem getattr_dispatch (item : string) :
  ((forall rest, item <> "show" +:+ rest) ->
   __getattr__ fromstring item = Raise (attribute_error item)) /\
  (forall rest, item = "show" +:+ rest ->
   exists wrapper,
     __getattr__ fromstring item = Return wrapper /\
     forall self d,
       device self = Some d ->
       let cmd := Text.replace "_" " " item in
       let request := "<CLI><Exec>" +:+ cmd +:+ "</Exec></CLI>" in
       wrapper self
       = (match fst (__execute_show__ fromstring d cmd) with
          | Return response => Return (default response (Banner.search response))
          | Raise e => Raise e
          end, with_device self (exchange d request)) /\
       sent (log (exchange d request)) = sent (log d) ++ [envelope request] /\
       String.list_ascii_of_string cmd
       = map (fun c => if Ascii.eqb c "_" then " "%char else c)
           (String.list_ascii_of_string item)).
Proof.
  unfold __getattr__, Text.startswith. split.
  - intros Hno. destruct (String.prefix "show" item) eqn:Hp; [| done].
    apply prefix_spec in Hp as [rest ->]. by destruct (Hno rest).
  - intros rest Hitem.
    assert (String.prefix "show" item = true) as ->
      by (apply prefix_spec; by exists rest).
    eexists. split; [reflexivity |].
    intros self d Hdev.
    set (cmd := Text.replace "_" " " item).
    set (request := "<CLI><Exec>" +:+ cmd +:+ "</Exec></CLI>").
    split; [| split].
    + unfold bind. rewrite (on_device_set _ self d Hdev).
      rewrite execute_show_exchange. fold request.
      destruct (fst (__execute_show__ fromstring d cmd)) as [response|e];
        [| done].
      by destruct (Banner.search response).
    + apply sent_exchange.
    + apply replace_maps.
Qed.

(** C4, as the code has it: when the device rejects the password, [open]
    ends with pexpect's [TIMEOUT] or [EOF], a transport error (the program
    has no authentication error), [self.device] stays unset, and the
    password is the last thing sent: no [<Lock/>] RPC follows. *)
Theorem open_rejected_password (self : IOSXR) (d0 : Device) :
  spawn ("ssh " +:+ username self +:+ "@" +:+ hostname self) = Return d0 ->
  rejects_password d0 (password self) ->
  exists e d',
    open fromstring spawn self = (Raise e, self, Some d') /\
    (e = TIMEOUT \/ e = EOF) /\
    taxonomy e = Some TransportError /\
    (sent (log d') = sent (log d0) ++ [password self] \/
     sent (log d') = sent (log d0) ++ ["yes"; password self]).
Proof.
  intros Hspawn (d & Hprompt & Hreject).
  unfold open. rewrite Hspawn. unfold_monad.
  unfold at_password_prompt in Hprompt. cbv zeta in Hprompt, Hreject.
  rewrite !child_record in *.
  destruct (child d0 (log (record (Expect login_patterns) d0)))
    as [[|[|?]] t| |] eqn:Hfirst; try discriminate.
  - cbn [fst Nat.eqb]. unfold_monad. rewrite !child_record.
    destruct (child d0 (log (record (Expect login_patterns)
                (record (Sendline "yes") (record (Expect login_patterns) d0)))))
      as [[|[|?]] t'| |] eqn:Hsecond; try discriminate.
    injection Hprompt as <-. rewrite !child_record in Hreject.
    cbn [fst Nat.eqb]. unfold_monad. rewrite !child_record.
    destruct Hreject as [Hr | Hr]; rewrite Hr; cbn [index_of_eof fmap option_fmap option_map];
      eexists _, _; (split; [reflexivity |]); (split; [eauto |]);
      (split; [reflexivity |]); right;
      rewrite !sent_record; cbv iota; by rewrite ?app_nil_r, <- ?app_assoc.
  - injection Hprompt as <-. rewrite !child_record in Hreject.
    cbn [fst Nat.eqb]. unfold_monad. rewrite !child_record.
    destruct Hreject as [Hr | Hr]; rewrite Hr; cbn [index_of_eof fmap option_fmap option_map];
      eexists _, _; (split; [reflexivity |]); (split; [eauto |]);
      (split; [reflexivity |]); left;
      rewrite !sent_record; cbv iota; by rewrite ?app_nil_r, <- ?app_assoc.
Qed.

End SessionFacts.

(** ** The statements at concrete devices *)

Section Concrete.

Import Examples.

(** C1 fails as stated: this response has [ErrorCount] 0 and
    [__execute_rpc__] raises. *)
Lemma execute_rpc_zero_errors_raises :
  let d := fresh [Matched 0 invalid_text] in
  reply d load = Matched 0 invalid_text /\
  parse invalid_text = Some invalid_root /\
  error_count invalid_root = Some 0 /\
  fst (__execute_rpc__ parse d load)
  = Raise (InvalidInputError
             ("Invalid input entered:" +:+ Text.chr Text.LF +:+ complaint)).
Proof. vm_compute. repeat split. Qed.

Lemma execute_rpc_zero_errors_witness :
  __execute_rpc__ parse (fresh [Matched 0 ok_text]) "<Commit/>"
  = (Return ok_root, exchange (fresh [Matched 0 ok_text]) "<Commit/>").
Proof.
  refine (proj1 (execute_rpc_zero_errors parse (fresh [Matched 0 ok_text])
                   "<Commit/>" 0%nat ok_text ok_root _ _ _) _).
  - vm_compute. reflexivity.
  - vm_compute. reflexivity.
  - vm_compute. reflexivity.
  - intros (output & Hpayload & _). vm_compute in Hpayload. discriminate.
Defined.


Lemma execute_rpc_missing_error_message_witness :
  exists e,
    __execute_rpc__ parse (fresh [Matched 0 mute_error_text]) "<Commit/>"
    = (Raise e, exchange (fresh [Matched 0 mute_error_text]) "<Commit/>") /\
    e = TypeError "unsupported operand type(s) for +=: 'NoneType' and 'str'" /\
    taxonomy e = None.
Proof.
  refine (execute_rpc_missing_error_message parse
            (fresh [Matched 0 mute_error_text]) "<Commit/>" 0%nat
            mute_error_text mute_error_root mute_error_root 1 _ _ _ _ _ _).
  - vm_compute. reflexivity.
  - vm_compute. reflexivity.
  - vm_compute. reflexivity.
  - lia.
  - vm_compute. reflexivity.
  - vm_compute. reflexivity.
Defined.

Lemma show_left_trims_witness :
  (exists shown,
     __execute_show__ parse_padded (fresh [Matched 0 nbsp_text]) "show version"
     = (Return shown,
        exchange (fresh [Matched 0 nbsp_text])
          "<CLI><Exec>show version</Exec></CLI>") /\
     left_trimmed nbsp_payload shown) /\
  (exists shown,
     __execute_config_show__ parse (fresh [Matched 0 config_text]) "show"
     = (Return shown,
        exchange (fresh [Matched 0 config_text])
          "<CLI><Configuration>show</Configuration></CLI>") /\
     left_trimmed five_lines shown).
Proof.
  split.
  - apply (proj1 (show_left_trims parse_padded (fresh [Matched 0 nbsp_text])
                    "show version" nbsp_payload 0%nat nbsp_text nbsp_root 0
                    eq_refl eq_refl (Z.le_refl 0))).
    + vm_compute. reflexivity.
    + intros (output & Hpayload & _). vm_compute in Hpayload. discriminate.
    + vm_compute. reflexivity.
  - apply (proj2 (show_left_trims parse (fresh [Matched 0 config_text])
                    "show" five_lines 0%nat config_text config_root 0
                    eq_refl eq_refl (Z.le_refl 0))).
    + vm_compute. reflexivity.
    + vm_compute. reflexivity.
    + intros Hocc. apply contains_spec in Hocc. vm_compute in Hocc.
      discriminate.
Defined.

(** C7 fails as stated: the device returns this payload in the
    [Configuration] node of a response without errors, and
    [__execute_config_show__] raises [InvalidInputError] instead of
    returning the payload without its leading whitespace. *)
Lemma config_show_raises_on_complaint :
  let d := fresh [Matched 0 invalid_text] in
  let request :=
    "<CLI><Configuration>show configuration merge</Configuration></CLI>" in
  reply d request = Matched 0 invalid_text /\
  parse invalid_text = Some invalid_root /\
  error_count invalid_root = Some 0 /\
  configuration_payload invalid_root = Some complaint /\
  fst (__execute_config_show__ parse d "show configuration merge")
  = Raise (InvalidInputError
             ("Invalid input entered:" +:+ Text.chr Text.LF +:+ complaint)).
Proof. vm_compute. repeat split. Qed.

(** C6 fails as stated: the payload of this diff preview has seven lines,
    without its first two and last two it is the lines A, B and C, and
    [compare_replace_config] returns the line C alone, because the two
    empty lines at the front are gone before the lines are counted. *)
Lemma compare_replace_config_trims_after_lstrip :
  let line s := s +:+ Text.chr Text.LF in
  configuration_payload padded_root = Some padded_lines /\
  length (Text.splitlines padded_lines) = 7%nat /\
  Text.join (Text.slice (Text.splitlines padded_lines) 2 (-2))
  = line "A" +:+ line "B" +:+ line "C" /\
  fst (compare_replace_config parse_padded (session [Matched 0 padded_text]))
  = Return (line "C").
Proof. vm_compute. repeat split. Qed.

(** C2 fails as stated: the load raises [InvalidInputError], the device
    answers the [<Clear/>] with an error, and the caller gets the
    [XMLCLIError] of the discard, not the [InvalidInputError]. *)
Lemma load_candidate_config_discard_fails :
  let replies := [Matched 0 invalid_text; Matched 0 cli_error_text] in
  (exists message,
     fst (__execute_rpc__ parse (fresh replies) load)
     = Raise (InvalidInputError message)) /\
  (exists message,
     fst (load_candidate_config parse no_files None (Some "interface bogus")
            (session replies))
     = Raise (XMLCLIError message)).
Proof. vm_compute. split; eexists; reflexivity. Qed.

Lemma load_candidate_config_discards_witness :
  let replies := [Matched 0 invalid_text; Matched 0 ok_text] in
  exists message self',
    load_candidate_config parse no_files None (Some "interface bogus")
      (session replies)
    = (Raise (InvalidInputError message), self') /\
    (sent <$> (log <$> device self')) = Some [envelope load; envelope "<Clear/>"].
Proof.
  intros replies.
  destruct (load_candidate_config_discards parse no_files (session replies)
              (fresh replies) (exchange (fresh replies) load)
              None (Some "interface bogus") "interface bogus"
              ("Invalid input entered:" +:+ Text.chr Text.LF +:+ complaint))
    as (Hload & Hsent & _).
  - reflexivity.
  - left. split; reflexivity.
  - vm_compute. reflexivity.
  - exists ("Invalid input entered:" +:+ Text.chr Text.LF +:+ complaint),
      (with_device (session replies)
         (exchange (exchange (fresh replies) load) "<Clear/>")).
    split.
    + rewrite Hload. f_equal.
    + cbn [device with_device fmap option_fmap option_map].
      rewrite Hsent. reflexivity.
Defined.

(** C4 fails as stated: the device asks for the password and never shows
    the prompt; [open] ends with pexpect's [TIMEOUT], which is not an
    authentication error.  Only the password has been sent. *)
Lemma open_wrong_password_times_out :
  let self := __init__ "router" "admin" "wrong" in
  let asks := fresh [Matched 1 "password:"] in
  let result := open parse (fun _ => Return asks) self in
  rejects_password asks "wrong" /\
  fst (fst result) = Raise TIMEOUT /\
  taxonomy TIMEOUT <> Some AuthenticationError /\
  (sent <$> (log <$> snd result)) = Some ["wrong"].
Proof.
  split; [| vm_compute; repeat split; discriminate].
  eexists. split; [vm_compute; reflexivity |]. left. vm_compute. reflexivity.
Qed.

Lemma open_rejected_password_witness :
  let self := __init__ "router" "admin" "wrong" in
  let asks := fresh [Matched 0 "(yes/no)?"; Matched 1 "password:"; Eof] in
  exists e d',
    open parse (fun _ => Return asks) self = (Raise e, self, Some d') /\
    (e = TIMEOUT \/ e = EOF) /\
    taxonomy e = Some TransportError /\
    (sent (log d') = sent (log asks) ++ [password self] \/
     sent (log d') = sent (log asks) ++ ["yes"; password self]).
Proof.
  intros self asks.
  apply (open_rejected_password parse (fun _ => Return asks) self asks).
  - reflexivity.
  - eexists. split; [vm_compute; reflexivity |]. right. vm_compute. reflexivity.
Defined.

Lemma compare_trims_two_lines_witness :
  let replies := [Matched 0 config_text; Matched 0 exec_text] in
  (exists diff,
     fst (compare_config parse both_sides (session replies)) = Return diff) /\
  (exists diff,
     fst (compare_replace_config parse (session replies)) = Return diff).
Proof.
  intros replies.
  destruct (compare_trims_two_lines parse both_sides (session replies)
              (fresh replies) eq_refl) as [Hmerge Hreplace].
  split.
  - destruct (Hmerge
                (exchange (fresh replies)
                   "<CLI><Configuration>show configuration merge</Configuration></CLI>")
                (exchange
                   (exchange (fresh replies)
                      "<CLI><Configuration>show configuration merge</Configuration></CLI>")
                   "<CLI><Exec>show running-config</Exec></CLI>")
                (Text.lstrip five_lines) (Text.lstrip five_lines))
      as (? & ? & ? & ? & ? & ? & ? & ? & ? & ? & diff & _ & _ & Hdiff & _).
    + vm_compute. reflexivity.
    + vm_compute. reflexivity.
    + vm_compute. lia.
    + vm_compute. lia.
    + exists diff. by rewrite Hdiff.
  - destruct (Hreplace
                (exchange (fresh replies)
                   "<CLI><Configuration>show configuration changes diff</Configuration></CLI>")
                (Text.lstrip five_lines))
      as (? & ? & diff & ? & ? & _ & _ & Hdiff).
    + vm_compute. reflexivity.
    + vm_compute. lia.
    + exists diff. by rewrite Hdiff.
Defined.

Lemma getattr_dispatch_witness :
  __getattr__ parse "commit" = Raise (attribute_error "commit") /\
  exists wrapper,
    __getattr__ parse "show_ip_route" = Return wrapper /\
    sent <$> (log <$> device (snd (wrapper (session [Matched 0 exec_text]))))
    = Some [envelope "<CLI><Exec>show ip route</Exec></CLI>"].
Proof.
  split.
  - apply (proj1 (getattr_dispatch parse "commit")).
    intros rest H. vm_compute in H. discriminate.
  - destruct (proj2 (getattr_dispatch parse "show_ip_route") "_ip_route" eq_refl)
      as (wrapper & Hget & Hcall).
    exists wrapper. split; [exact Hget |].
    destruct (Hcall (session [Matched 0 exec_text]) (fresh [Matched 0 exec_text])
                eq_refl) as (-> & Hsent & _).
    cbn [snd device with_device fmap option_fmap option_map].
    rewrite Hsent. vm_compute. reflexivity.
Defined.

End Concrete.

(** ** More on the RPC codec *)

Section CodecCases.

Variable fromstring : string -> option Element.

(** The outcome of [__execute_rpc__] on a response that parses, read off
    the tree: the failures of the error-count lookup first, then the two
    branches on the count. *)
Lemma execute_rpc_cases (d : Device) (rpc_command : string) :
  fst (__execute_rpc__ fromstring d rpc_command) =
    match reply d rpc_command with
    | Timeout => Raise TIMEOUT
    | Eof => Raise EOF
    | Matched _ response =>
        match fromstring response with
        | None => Raise ParseError
        | Some root =>
            match find root "ResultSummary" with
            | None => Raise (no_attribute "get")
            | Some summary =>
                match get summary "ErrorCount" with
                | None =>
                    Raise (TypeError "int() argument must be a string or a number, not 'NoneType'")
                | Some count =>
                    match Text.int count with
                    | None => Raise ValueError
                    | Some n =>
                        if 0 <? n then
                          match error_node root with
                          | Some node =>
                              match get node "ErrorMsg" with
                              | Some msg =>
                                  Raise (XMLCLIError
                                           (msg +:+ Text.chr Text.LF +:+ "Original call was: "
                                            +:+ envelope rpc_command))
                              | None =>
                                  Raise (TypeError "unsupported operand type(s) for +=: 'NoneType' and 'str'")
                              end
                          | None => Raise (no_attribute "get")
                          end
                        else
                          match configuration_payload root with
                          | Some output =>
                              if Text.contains "Invalid input detected" output
                              then Raise (InvalidInputError
                                            ("Invalid input entered:" +:+ Text.chr Text.LF +:+ output))
                              else Return root
                          | None => Return root
                          end
                    end
                end
            end
        end
    end.
Proof.
  destruct (reply d rpc_command) as [i response| |] eqn:Hreply.
  - destruct (fromstring response) as [root|] eqn:Hparse.
    + destruct (find root "ResultSummary") as [summary|] eqn:Hsum.
      * destruct (get summary "ErrorCount") as [count|] eqn:Hcount.
        -- destruct (Text.int count) as [n|] eqn:Hint.
           ++ apply (execute_rpc_answer fromstring d rpc_command i response root n
                       Hreply Hparse).
              unfold error_count. by rewrite Hsum, Hcount.
           ++ unfold reply, exchange in Hreply.
              unfold __execute_rpc__. fold (envelope rpc_command). unfold_monad.
              rewrite !child_record, Hreply. unfold_monad. cbn [snd].
              rewrite Hparse. unfold_monad. rewrite Hsum. unfold_monad.
              rewrite Hcount. unfold_monad. by rewrite Hint.
        -- unfold reply, exchange in Hreply.
           unfold __execute_rpc__. fold (envelope rpc_command). unfold_monad.
           rewrite !child_record, Hreply. unfold_monad. cbn [snd].
           rewrite Hparse. unfold_monad. rewrite Hsum. unfold_monad.
           by rewrite Hcount.
      * unfold reply, exchange in Hreply.
        unfold __execute_rpc__. fold (envelope rpc_command). unfold_monad.
        rewrite !child_record, Hreply. unfold_monad. cbn [snd].
        rewrite Hparse. unfold_monad. by rewrite Hsum.
    + unfold reply, exchange in Hreply.
      unfold __execute_rpc__. fold (envelope rpc_command). unfold_monad.
      rewrite !child_record, Hreply. unfold_monad. cbn [snd].
      by rewrite Hparse.
  - unfold reply, exchange in Hreply.
    unfold __execute_rpc__. fold (envelope rpc_command). unfold_monad.
    by rewrite !child_record, Hreply.
  - unfold reply, exchange in Hreply.
    unfold __execute_rpc__. fold (envelope rpc_command). unfold_monad.
    by rewrite !child_record, Hreply.
Qed.

Lemma execute_rpc_pair (d : Device) (rpc_command : string) :
  __execute_rpc__ fromstring d rpc_command
  = (fst (__execute_rpc__ fromstring d rpc_command), exchange d rpc_command).
Proof.
  rewrite <- (execute_rpc_exchange fromstring d rpc_command).
  by destruct (__execute_rpc__ fromstring d rpc_command).
Qed.

(** X1: when the device does not answer, [__execute_rpc__] raises
    pexpect's exception, [TIMEOUT] on a timeout and [EOF] at the end of the
    stream (the response pattern does not list [pexpect.EOF]); both are
    transport errors, and the envelope has been sent all the same. *)
Theorem execute_rpc_no_answer (d : Device) (rpc_command : string) :
  reply d rpc_command = Timeout \/ reply d rpc_command = Eof ->
  exists e,
    __execute_rpc__ fromstring d rpc_command = (Raise e, exchange d rpc_command) /\
    e = (match reply d rpc_command with Eof => EOF | _ => TIMEOUT end) /\
    taxonomy e = Some TransportError /\
    sent (log (exchange d rpc_command)) = sent (log d) ++ [envelope rpc_command].
Proof.
  intros Hreply. rewrite execute_rpc_pair, execute_rpc_cases.
  destruct Hreply as [-> | ->]; eexists;
    (split; [reflexivity |]); (split; [reflexivity |]);
    (split; [reflexivity | apply sent_exchange]).
Qed.

(** X2: a response that [ET.fromstring] refuses makes [__execute_rpc__]
    raise [ParseError], the malformed-response error, whatever the text. *)
Theorem execute_rpc_unparsable (d : Device) (rpc_command : string)
    (i : nat) (response : string) :
  reply d rpc_command = Matched i response ->
  fromstring response = None ->
  __execute_rpc__ fromstring d rpc_command
  = (Raise ParseError, exchange d rpc_command) /\
  taxonomy ParseError = Some MalformedResponseError.
Proof.
  intros Hreply Hparse. rewrite execute_rpc_pair, execute_rpc_cases.
  by rewrite Hreply, Hparse.
Qed.




(** X6: when the RPC returns a response without a payload to show (no
    [CLI] child, no [Exec] respectively [Configuration] child in it, or one
    without text, as for an empty output), [__execute_show__] and
    [__execute_config_show__] do not return an empty string: they raise
    [AttributeError], which is outside the documented error kinds. *)
Theorem show_without_payload (d d' : Device) (command : string)
    (root : Element) :
  (__execute_rpc__ fromstring d ("<CLI><Exec>" +:+ command +:+ "</Exec></CLI>")
   = (Return root, d') ->
   exec_payload root = None ->
   exists attr,
     __execute_show__ fromstring d command = (Raise (no_attribute attr), d') /\
     taxonomy (no_attribute attr) = None) /\
  (__execute_rpc__ fromstring d
     ("<CLI><Configuration>" +:+ command +:+ "</Configuration></CLI>")
   = (Return root, d') ->
   configuration_payload root = None ->
   exists attr,
     __execute_config_show__ fromstring d command = (Raise (no_attribute attr), d') /\
     taxonomy (no_attribute attr) = None).
Proof.
  split; intros Hrpc Hpayload.
  - unfold __execute_show__, exec_payload in *. unfold_monad. rewrite Hrpc.
    destruct (find root "CLI") as [cli|]; [| by eexists].
    destruct (find cli "Exec") as [exec|]; unfold_monad; [| by eexists].
    rewrite Hpayload. by eexists.
  - unfold __execute_config_show__, configuration_payload in *. unfold_monad.
    rewrite Hrpc.
    destruct (find root "CLI") as [cli|]; [| by eexists].
    destruct (find cli "Configuration") as [conf|]; unfold_monad; [| by eexists].
    rewrite Hpayload. by eexists.
Qed.

End CodecCases.

(** ** The banner search *)

Lemma strip_prefix_spec (p s rest : string) :
  Banner.strip_prefix p s = Some rest <-> s = p +:+ rest.
Proof.
  revert s. induction p as [|a p IH]; intros s.
  - cbn [Banner.strip_prefix]. split; [by intros [= ->] | by intros ->].
  - destruct s as [|b s]; cbn [Banner.strip_prefix]; [done |].
    rewrite append_cons. destruct (Ascii.eqb a b) eqn:Hab.
    + apply Ascii.eqb_eq in Hab as ->. rewrite IH.
      split; [by intros -> | by intros [= ->]].
    + apply Ascii.eqb_neq in Hab. split; [done | intros [= <- _]; done].
Qed.

Lemma upto_last_sound (needle s r : string) :
  Banner.upto_last needle s = Some r ->
  exists after, s = r +:+ needle +:+ after.
Proof.
  revert r. induction s as [|c s IH]; intros r; cbn [Banner.upto_last].
  - destruct (String.prefix needle EmptyString) eqn:Hp; [| done].
    intros [= <-]. by apply prefix_spec in Hp.
  - destruct (Banner.upto_last needle s) as [r'|].
    + intros [= <-]. destruct (IH r' eq_refl) as [after ->].
      by exists after.
    + destruct (String.prefix needle (String c s)) eqn:Hp; [| done].
      intros [= <-]. by apply prefix_spec in Hp.
Qed.

Lemma upto_last_complete (needle before after : string) :
  is_Some (Banner.upto_last needle (before +:+ needle +:+ after)).
Proof.
  induction before as [|c before IH].
  - assert (String.prefix needle (needle +:+ after) = true) as Hp
      by (apply prefix_spec; by exists after).
    change (EmptyString +:+ needle +:+ after) with (needle +:+ after).
    destruct (needle +:+ after) as [|c s]; cbn [Banner.upto_last].
    + by rewrite Hp.
    + destruct (Banner.upto_last needle s); [done |]. by rewrite Hp.
  - rewrite append_cons. cbn [Banner.upto_last].
    by destruct IH as [r ->].
Qed.

Lemma at_last_sound {A} (f : string -> option A) (s : string) (r : A) :
  Banner.at_last f s = Some r ->
  exists before u, s = before +:+ u /\ f u = Some r.
Proof.
  induction s as [|c s IH]; cbn [Banner.at_last].
  - intros H. by exists EmptyString, EmptyString.
  - destruct (Banner.at_last f s) as [r'|].
    + intros [= ->]. destruct (IH eq_refl) as (before & u & -> & Hu).
      by exists (String c before), u.
    + intros H. by exists EmptyString, (String c s).
Qed.

Lemma at_last_complete {A} (f : string -> option A) (before u : string) :
  is_Some (f u) -> is_Some (Banner.at_last f (before +:+ u)).
Proof.
  intros Hu. induction before as [|c before IH].
  - change (EmptyString +:+ u) with u.
    destruct u as [|c s]; cbn [Banner.at_last]; [done |].
    by destruct (Banner.at_last f s).
  - rewrite append_cons. cbn [Banner.at_last]. by destruct IH as [r ->].
Qed.

(** The search of the wrapper finds something exactly in the texts
    that hold the banner with the closing tag of [Exec] somewhere after
    it; what it finds begins with the banner, is a piece of the text, and
    is followed there by the closing tag. *)
Lemma banner_search_spec (response : string) :
  (is_Some (Banner.search response) <->
   exists before mid after,
     response = before +:+ Banner.banner +:+ mid +:+ "</Exec>" +:+ after) /\
  (forall group1,
     Banner.search response = Some group1 ->
     exists before mid after,
       group1 = Banner.banner +:+ mid /\
       response = before +:+ group1 +:+ "</Exec>" +:+ after).
Proof.
  assert (forall group1,
            Banner.search response = Some group1 ->
            exists before mid after,
              group1 = Banner.banner +:+ mid /\
              response = before +:+ group1 +:+ "</Exec>" +:+ after) as Hsound.
  { intros group1 H. unfold Banner.search in H.
    apply at_last_sound in H as (before & u & -> & Hu).
    destruct (Banner.strip_prefix Banner.banner u) as [rest|] eqn:Hrest;
      [| done].
    apply strip_prefix_spec in Hrest as ->.
    destruct (Banner.upto_last "</Exec>" rest) as [mid|] eqn:Hmid; [| done].
    apply upto_last_sound in Hmid as [after ->]. injection Hu as <-.
    exists before, mid, after. split; [done |]. by rewrite !append_assoc. }
  split; [split |]; [| | exact Hsound].
  - intros [group1 H]. destruct (Hsound group1 H) as (b & m & a & -> & ->).
    exists b, m, a. by rewrite !append_assoc.
  - intros (before & mid & after & ->). unfold Banner.search.
    apply at_last_complete.
    assert (Banner.strip_prefix Banner.banner
              (Banner.banner +:+ mid +:+ "</Exec>" +:+ after)
            = Some (mid +:+ "</Exec>" +:+ after)) as ->
      by (by apply strip_prefix_spec).
    by destruct (upto_last_complete "</Exec>" mid after) as [r ->].
Qed.

(** ** More on the session *)

Section SessionCases.

Variable fromstring : string -> option Element.
Variable spawn : string -> result Device.
Variable read_file : string -> option string.
Variable unified_diff : list string -> list string -> nat -> list string.

(** X7: [load_candidate_config] discards only on [InvalidInputError].
    When the load RPC returns, or raises anything else (an [XMLCLIError]
    for a positive error count, a transport error), the caller gets that
    outcome and the load is the only request sent: no [<Clear/>] follows. *)
Theorem load_candidate_config_no_discard (self : IOSXR) (d : Device)
    (configuration : string) :
  device self = Some d ->
  let load := "<CLI><Configuration>" +:+ configuration +:+ "</Configuration></CLI>" in
  (forall message,
     fst (__execute_rpc__ fromstring d load) <> Raise (InvalidInputError message)) ->
  load_candidate_config fromstring read_file None (Some configuration) self
  = (match fst (__execute_rpc__ fromstring d load) with
     | Return _ => Return tt
     | Raise e => Raise e
     end, with_device self (exchange d load)) /\
  sent (log (exchange d load)) = sent (log d) ++ [envelope load].
Proof.
  intros Hdev load Hother. split; [| apply sent_exchange].
  unfold load_candidate_config. unfold bind at 1. cbn [ret].
  unfold bind at 1. cbn [or_raise ret]. fold load.
  unfold except_InvalidInputError. unfold bind at 1.
  rewrite (rpc_set fromstring self d load Hdev).
  destruct (fst (__execute_rpc__ fromstring d load)) as [root|e] eqn:Hfst;
    [done |].
  destruct e; try done. by destruct (Hother msg).
Qed.

(** X8: the file takes precedence, and the text is no fallback.  With a
    readable file [load_candidate_config] behaves as if the file's content
    had been given as the text, whatever the [config] argument is; with a
    file that cannot be read it raises [IOError] and does nothing else,
    also when a text was given besides. *)
Theorem load_candidate_config_file_first (self : IOSXR)
    (name : string) (config : option string) :
  (forall content,
     read_file name = Some content ->
     load_candidate_config fromstring read_file (Some name) config self
     = load_candidate_config fromstring read_file None (Some content) self) /\
  (read_file name = None ->
   load_candidate_config fromstring read_file (Some name) config self
   = (Raise IOError, self)).
Proof.
  split.
  - intros content Hread. unfold load_candidate_config.
    unfold bind at 1. unfold bind at 1. cbn [or_raise]. rewrite Hread.
    reflexivity.
  - intros Hread. unfold load_candidate_config.
    unfold bind at 1. unfold bind at 1. cbn [or_raise]. by rewrite Hread.
Qed.

(** X9: on a session that was never opened, every operation that talks to
    the device raises the [AttributeError] of [__getattr__] for the name
    [device] and leaves the session as it was; a dynamic [show_*] call does
    the same. *)
Theorem unopened_session_raises (self : IOSXR) :
  device self = None ->
  let e := attribute_error "device" in
  close fromstring self = (Raise e, self) /\
  discard_config fromstring self = (Raise e, self) /\
  commit_config fromstring self = (Raise e, self) /\
  commit_replace_config fromstring self = (Raise e, self) /\
  rollback fromstring self = (Raise e, self) /\
  compare_config fromstring unified_diff self = (Raise e, self) /\
  compare_replace_config fromstring self = (Raise e, self) /\
  (forall configuration,
     load_candidate_config fromstring read_file None (Some configuration) self
     = (Raise e, self)) /\
  (forall item wrapper,
     __getattr__ fromstring item = Return wrapper ->
     wrapper self = (Raise e, self)) /\
  taxonomy e = None.
Proof.
  intros Hdev e.
  assert (forall A (f : Device -> result A * Device),
            on_device f self = (Raise e, self)) as Hon.
  { intros A f. unfold on_device. by rewrite Hdev. }
  repeat split.
  - unfold close, rpc, bind. by rewrite Hon.
  - unfold discard_config, rpc, bind. by rewrite Hon.
  - unfold commit_config, rpc, bind. by rewrite Hon.
  - unfold commit_replace_config, rpc, bind. by rewrite Hon.
  - unfold rollback, rpc, bind. by rewrite Hon.
  - unfold compare_config, bind. by rewrite Hon.
  - unfold compare_replace_config, bind. by rewrite Hon.
  - intros configuration. unfold load_candidate_config.
    unfold bind at 1. cbn [ret]. unfold bind at 1. cbn [or_raise ret].
    unfold except_InvalidInputError, rpc, bind. by rewrite Hon.
  - intros item wrapper. unfold __getattr__.
    destruct (Text.startswith item "show"); [| discriminate].
    intros [= <-]. unfold bind. by rewrite Hon.
Qed.

(** X10: [close] releases the transport only after a successful unlock.
    When the [<Unlock/>] RPC returns, the child is closed right after the
    exchange; when it raises, [close] raises the same exception and the
    child is left open. *)
Theorem close_unlocks_first (self : IOSXR) (d : Device) :
  device self = Some d ->
  let d1 := exchange d "<Unlock/>" in
  (forall root,
     fst (__execute_rpc__ fromstring d "<Unlock/>") = Return root ->
     close fromstring self = (Return tt, with_device self (record Close d1))) /\
  (forall e,
     fst (__execute_rpc__ fromstring d "<Unlock/>") = Raise e ->
     close fromstring self = (Raise e, with_device self d1) /\
     log d1 = log d ++ [Sendline (envelope "<Unlock/>"); Expect response_pattern]).
Proof.
  intros Hdev d1. split.
  - intros root Hrpc. unfold close. unfold bind.
    rewrite (rpc_set fromstring self d "<Unlock/>" Hdev), Hrpc.
    by rewrite (on_device_set _ (with_device self d1) d1 eq_refl).
  - intros e Hrpc. split.
    + unfold close. unfold bind.
      by rewrite (rpc_set fromstring self d "<Unlock/>" Hdev), Hrpc.
    + subst d1. unfold exchange. by rewrite !log_record, <- app_assoc.
Qed.

(** X11: below four lines [compare_replace_config] returns the empty
    string, and [compare_config] hands the differ an empty side for every
    text below four lines, whatever the other side is. *)
Theorem compare_short_texts (self : IOSXR) (d : Device) :
  device self = Some d ->
  (forall d1 changes,
     __execute_config_show__ fromstring d "show configuration changes diff"
     = (Return changes, d1) ->
     (length (Text.splitlines changes) < 4)%nat ->
     compare_replace_config fromstring self
     = (Return EmptyString, with_device self d1)) /\
  (forall d1 d2 show_merge show_run,
     __execute_config_show__ fromstring d "show configuration merge"
     = (Return show_merge, d1) ->
     __execute_show__ fromstring d1 "show running-config"
     = (Return show_run, d2) ->
     let differ run merge :=
       Text.join (map (Text.replace Text.CR EmptyString)
                    (unified_diff run merge 0)) in
     ((length (Text.splitlines show_run) < 4)%nat ->
      compare_config fromstring unified_diff self
      = (Return (differ [] (Text.slice (Text.splitlines show_merge) 2 (-2))),
         with_device self d2)) /\
     ((length (Text.splitlines show_merge) < 4)%nat ->
      compare_config fromstring unified_diff self
      = (Return (differ (Text.slice (Text.splitlines show_run) 2 (-2)) []),
         with_device self d2))).
Proof.
  intros Hdev. split.
  - intros d1 changes Hchanges Hlen.
    unfold compare_replace_config. unfold bind at 1.
    rewrite (on_device_set _ self d Hdev), Hchanges. cbn [fst snd].
    by rewrite (slice_2_m2_short _ Hlen).
  - intros d1 d2 show_merge show_run Hmerge Hrun differ.
    assert (compare_config fromstring unified_diff self
            = (Return (differ (Text.slice (Text.splitlines show_run) 2 (-2))
                         (Text.slice (Text.splitlines show_merge) 2 (-2))),
               with_device self d2)) as ->.
    { unfold compare_config. unfold bind at 1.
      rewrite (on_device_set _ self d Hdev), Hmerge. cbn [fst snd].
      unfold bind at 1.
      by rewrite (on_device_set _ (with_device self d1) d1 eq_refl), Hrun. }
    split; intros Hlen; by rewrite (slice_2_m2_short _ Hlen).
Qed.

(** X12: [compare_replace_config] never invents text: what it returns is
    one contiguous piece of the text the device showed, for every number
    of lines. *)
Theorem compare_replace_config_piece (self : IOSXR) (d d1 : Device)
    (changes : string) :
  device self = Some d ->
  __execute_config_show__ fromstring d "show configuration changes diff"
  = (Return changes, d1) ->
  exists diff,
    compare_replace_config fromstring self = (Return diff, with_device self d1) /\
    occurs_in diff changes.
Proof.
  intros Hdev Hchanges. eexists. split.
  - unfold compare_replace_config. unfold bind at 1.
    rewrite (on_device_set _ self d Hdev), Hchanges. reflexivity.
  - unfold Text.slice.
    set (len := Z.to_nat _). set (lo := Z.to_nat _).
    exists (Text.join (take lo (Text.splitlines changes))),
           (Text.join (drop len (drop lo (Text.splitlines changes)))).
    rewrite <- !join_app, !take_drop. symmetry. apply join_splitlines.
Qed.

(** X13: [compare_config] asks for the merge preview first.  When that
    request fails, the exception goes to the caller after this single
    exchange: the running configuration is not requested. *)
Theorem compare_config_merge_fails (self : IOSXR) (d : Device) (e : exn) :
  device self = Some d ->
  fst (__execute_config_show__ fromstring d "show configuration merge") = Raise e ->
  exists d1,
    compare_config fromstring unified_diff self = (Raise e, with_device self d1) /\
    sent (log d1) = sent (log d) ++
      [envelope "<CLI><Configuration>show configuration merge</Configuration></CLI>"].
Proof.
  intros Hdev Hmerge.
  exists (snd (__execute_config_show__ fromstring d "show configuration merge")).
  split.
  - unfold compare_config. unfold bind at 1.
    by rewrite (on_device_set _ self d Hdev), Hmerge.
  - unfold __execute_config_show__. unfold_monad.
    pose proof (execute_rpc_exchange fromstring d
      ("<CLI><Configuration>" +:+ "show configuration merge" +:+ "</Configuration></CLI>")) as H.
    destruct (__execute_rpc__ _ _ _) as [[root|e'] d']; cbn [snd] in H; subst d'.
    + repeat (split_scrutinee; unfold_monad); apply sent_exchange.
    + apply sent_exchange.
Qed.

(** X16: what a dynamic [show_*] call returns.  If the text of the show
    holds the configuration banner with the closing tag of [Exec] somewhere
    after it, the call returns a piece of the text that begins with the
    banner and is followed there by the closing tag; in every other case,
    so whenever the text holds no such tag, it returns the text as the show
    gave it. *)
Theorem show_wrapper_result (item response : string)
    (wrapper : M IOSXR string) (self : IOSXR) (d d' : Device) :
  __getattr__ fromstring item = Return wrapper ->
  device self = Some d ->
  __execute_show__ fromstring d (Text.replace "_" " " item)
  = (Return response, d') ->
  let banner_before_tag :=
    exists before mid after,
      response = before +:+ Banner.banner +:+ mid +:+ "</Exec>" +:+ after in
  exists shown,
    wrapper self = (Return shown, with_device self d') /\
    (banner_before_tag ->
     exists before mid after,
       shown = Banner.banner +:+ mid /\
       response = before +:+ shown +:+ "</Exec>" +:+ after) /\
    (~ banner_before_tag -> shown = response).
Proof.
  intros Hget Hdev Hshow. cbv zeta. unfold __getattr__ in Hget.
  destruct (Text.startswith item "show"); [| discriminate].
  injection Hget as <-. unfold bind.
  rewrite (on_device_set _ self d Hdev), Hshow. cbn [fst snd].
  destruct (banner_search_spec response) as [Hiff Hsound].
  destruct (Banner.search response) as [group1|] eqn:Hsearch.
  - exists group1. split; [done |]. split.
    + intros _. by apply Hsound.
    + intros Hno. destruct Hno. apply Hiff. by eexists.
  - exists response. split; [done |]. split; [| done].
    intros Hyes. apply Hiff in Hyes. by destruct Hyes.
Qed.

End SessionCases.

(** ** Opening the session *)

Section OpenCases.

Variable fromstring : string -> option Element.
Variable spawn : string -> result Device.

(** X14: when [open] returns, [self.device] is the spawned child and the
    lines it has been sent are, in this order: [yes] exactly if the host
    key was asked about, the password exactly if it was asked for, [xml],
    and the [<Lock/>] request last. *)
Theorem open_returns (self self' : IOSXR) (d0 : Device) (o : option Device) :
  spawn ("ssh " +:+ username self +:+ "@" +:+ hostname self) = Return d0 ->
  open fromstring spawn self = (Return tt, self', o) ->
  exists d',
    o = Some d' /\
    self' = with_device self d' /\
    sent (log d')
    = sent (log d0)
      ++ (if asks_host_key d0 then ["yes"] else [])
      ++ (if asks_password d0 then [password self] else [])
      ++ ["xml"; envelope "<Lock/>"].
Proof.
  intros Hspawn. unfold open. rewrite Hspawn.
  unfold asks_password, asks_host_key, login_answer.
  unfold_monad. rewrite ?child_record.
  change (index_of_eof login_patterns) with (Some 2%nat).
  destruct (child d0 (log (record (Expect login_patterns) d0)))
    as [[|[|k]] t| |] eqn:Hfirst;
    unfold_monad; cbn [fst snd Nat.eqb]; rewrite ?child_record;
    try discriminate.
  1: destruct (child d0 (log (record (Expect login_patterns)
                 (record (Sendline "yes")
                    (record (Expect login_patterns) d0)))))
       as [[|[|k]] t'| |] eqn:Hsecond;
       unfold_monad; cbn [fst snd Nat.eqb]; rewrite ?child_record;
       try discriminate.
  all: repeat (split_scrutinee; unfold_monad; cbn [fst snd Nat.eqb];
               rewrite ?child_record).
  all: try discriminate.
  all: match goal with
       | H : rpc _ _ (with_device ?s ?dX) = _ |- _ =>
           rewrite (rpc_set fromstring (with_device s dX) dX _ eq_refl) in H;
           injection H as Hlock <-
       end.
  all: intros [= <- <-]; eexists; split; [reflexivity |];
       split; [reflexivity |].
  all: rewrite sent_exchange, !sent_record; cbv iota;
       rewrite ?app_nil_r, <- ?app_assoc; reflexivity.
Qed.

Ltac open_failure :=
  split; [reflexivity |]; split; [tauto |];
  first
    [ right; split; [reflexivity |];
      rewrite sent_exchange, !sent_record; cbv iota;
      rewrite ?app_nil_r, <- ?app_assoc; reflexivity
    | left; split; [reflexivity |]; exists [];
      rewrite ?sent_record; cbv iota;
      rewrite ?app_nil_r, <- ?app_assoc; split; [reflexivity | tauto]
    | left; split; [reflexivity |]; exists ["xml"];
      rewrite ?sent_record; cbv iota;
      rewrite ?app_nil_r, <- ?app_assoc; split; [reflexivity | tauto] ].

(** X15: when [open] raises, [self.device] has been set exactly if the
    failing step is the [<Lock/>] request itself: then the session object
    keeps the child although the lock was not obtained.  An exception at
    any earlier step leaves the session object as it was, and nothing
    beyond [yes], the password and [xml] has been sent. *)
Theorem open_raises (self self' : IOSXR) (d0 : Device) (o : option Device)
    (e : exn) :
  spawn ("ssh " +:+ username self +:+ "@" +:+ hostname self) = Return d0 ->
  open fromstring spawn self = (Raise e, self', o) ->
  exists d' pre,
    o = Some d' /\
    (pre = [] \/ pre = ["yes"] \/ pre = [password self] \/
     pre = ["yes"; password self]) /\
    ((self' = self /\
      exists tail,
        sent (log d') = sent (log d0) ++ pre ++ tail /\
        (tail = [] \/ tail = ["xml"])) \/
     (self' = with_device self d' /\
      sent (log d') = sent (log d0) ++ pre ++ ["xml"; envelope "<Lock/>"])).
Proof.
  intros Hspawn. unfold open. rewrite Hspawn. unfold_monad.
  repeat (split_scrutinee; unfold_monad; cbn [fst snd Nat.eqb];
          rewrite ?child_record).
  all: try discriminate.
  all: try match goal with
       | H : rpc _ _ (with_device ?s ?dX) = _ |- _ =>
           rewrite (rpc_set fromstring (with_device s dX) dX _ eq_refl) in H;
           injection H as Hlock <-
       end.
  all: intros [= <- <- <-]; eexists.
  all: first
         [ exists []; open_failure
         | exists ["yes"]; open_failure
         | exists [password self]; open_failure
         | exists ["yes"; password self]; open_failure ].
Qed.

End OpenCases.

(** ** The envelope *)

Lemma append_inj_r (a b f : string) : a +:+ f = b +:+ f -> a = b.
Proof.
  intros H.
  apply (f_equal String.list_ascii_of_string) in H.
  rewrite !list_ascii_append in H. apply app_inv_tail in H.
  apply (f_equal String.string_of_list_ascii) in H.
  by rewrite !String.string_of_list_ascii_of_string in H.
Qed.

(** X17: the request body can be read back from the envelope: two bodies
    with the same envelope are the same body. *)
Theorem envelope_inj (body1 body2 : string) :
  envelope body1 = envelope body2 -> body1 = body2.
Proof.
  unfold envelope. intros H. apply append_inj_l in H.
  by apply append_inj_r in H.
Qed.

(** ** These statements at concrete devices *)

Section MoreConcrete.

Import Examples MoreExamples.

Lemma execute_rpc_no_answer_witness :
  exists e,
    __execute_rpc__ parse (fresh []) "<Commit/>"
    = (Raise e, exchange (fresh []) "<Commit/>") /\
    e = TIMEOUT /\
    taxonomy e = Some TransportError /\
    sent (log (exchange (fresh []) "<Commit/>")) = [envelope "<Commit/>"].
Proof.
  apply (execute_rpc_no_answer parse (fresh []) "<Commit/>").
  left. vm_compute. reflexivity.
Defined.

Lemma execute_rpc_unparsable_witness :
  __execute_rpc__ parse (fresh [Matched 0 "<Response>"]) "<Commit/>"
  = (Raise ParseError, exchange (fresh [Matched 0 "<Response>"]) "<Commit/>") /\
  taxonomy ParseError = Some MalformedResponseError.
Proof.
  apply (execute_rpc_unparsable parse (fresh [Matched 0 "<Response>"])
           "<Commit/>" 0%nat "<Response>");
    vm_compute; reflexivity.
Defined.




Lemma show_without_payload_witness :
  (exists attr,
     fst (__execute_show__ parse (fresh [Matched 0 empty_exec_text]) "show users")
     = Raise (no_attribute attr)) /\
  (exists attr,
     fst (__execute_config_show__ parse (fresh [Matched 0 empty_config_text]) "show")
     = Raise (no_attribute attr)).
Proof.
  split.
  - destruct (proj1 (show_without_payload parse (fresh [Matched 0 empty_exec_text])
                       (exchange (fresh [Matched 0 empty_exec_text])
                          "<CLI><Exec>show users</Exec></CLI>")
                       "show users" empty_exec_root))
      as (attr & Hrun & _); [vm_compute; reflexivity ..|].
    exists attr. by rewrite Hrun.
  - destruct (proj2 (show_without_payload parse (fresh [Matched 0 empty_config_text])
                       (exchange (fresh [Matched 0 empty_config_text])
                          "<CLI><Configuration>show</Configuration></CLI>")
                       "show" empty_config_root))
      as (attr & Hrun & _); [vm_compute; reflexivity ..|].
    exists attr. by rewrite Hrun.
Defined.

Lemma load_candidate_config_no_discard_witness :
  exists message,
    fst (load_candidate_config parse no_files None (Some "interface bogus")
           (session [Matched 0 cli_error_text]))
    = Raise (XMLCLIError message) /\
    sent (log (exchange (fresh [Matched 0 cli_error_text]) load))
    = [envelope load].
Proof.
  destruct (load_candidate_config_no_discard parse no_files
              (session [Matched 0 cli_error_text])
              (fresh [Matched 0 cli_error_text]) "interface bogus" eq_refl)
    as [Hrun Hsent].
  - intros message H. vm_compute in H. discriminate.
  - eexists. split; [| exact Hsent]. rewrite Hrun. vm_compute. reflexivity.
Defined.

Lemma load_candidate_config_file_first_witness :
  load_candidate_config parse one_file (Some "candidate.cfg") (Some "ignored")
    (session [Matched 0 ok_text])
  = load_candidate_config parse one_file None (Some "interface bogus")
      (session [Matched 0 ok_text]) /\
  load_candidate_config parse one_file (Some "missing.cfg") (Some "ignored")
    (session [Matched 0 ok_text])
  = (Raise IOError, session [Matched 0 ok_text]).
Proof.
  split.
  - apply (proj1 (load_candidate_config_file_first parse one_file
                    (session [Matched 0 ok_text]) "candidate.cfg" (Some "ignored"))).
    reflexivity.
  - apply (proj2 (load_candidate_config_file_first parse one_file
                    (session [Matched 0 ok_text]) "missing.cfg" (Some "ignored"))).
    reflexivity.
Defined.

Lemma unopened_session_raises_witness :
  close parse router = (Raise (attribute_error "device"), router) /\
  rollback parse router = (Raise (attribute_error "device"), router).
Proof.
  destruct (unopened_session_raises parse no_files both_sides router eq_refl)
    as (Hclose & _ & _ & _ & Hrollback & _).
  by split.
Defined.

Lemma close_unlocks_first_witness :
  sent <$> (log <$> device (snd (close parse (session [Matched 0 ok_text]))))
  = Some [envelope "<Unlock/>"] /\
  fst (close parse (session [])) = Raise TIMEOUT.
Proof.
  split.
  - destruct (close_unlocks_first parse (session [Matched 0 ok_text])
                (fresh [Matched 0 ok_text]) eq_refl) as [Hreturns _].
    rewrite (Hreturns ok_root); [| vm_compute; reflexivity].
    vm_compute. reflexivity.
  - destruct (close_unlocks_first parse (session []) (fresh []) eq_refl)
      as [_ Hraises].
    destruct (Hraises TIMEOUT) as [Hrun _]; [vm_compute; reflexivity |].
    by rewrite Hrun.
Defined.

Lemma compare_short_texts_witness :
  fst (compare_replace_config parse
         (session [Matched 0 short_config_text]))
  = Return EmptyString /\
  fst (compare_config parse both_sides
         (session [Matched 0 config_text; Matched 0 short_exec_text]))
  = Return ("three" +:+ Text.chr Text.LF) /\
  fst (compare_config parse both_sides
         (session [Matched 0 short_config_text; Matched 0 exec_text]))
  = Return ("three" +:+ Text.chr Text.LF).
Proof.
  pose (merge := "<CLI><Configuration>show configuration merge</Configuration></CLI>").
  pose (run := "<CLI><Exec>show running-config</Exec></CLI>").
  split; [| split].
  - destruct (compare_short_texts parse both_sides
                (session [Matched 0 short_config_text])
                (fresh [Matched 0 short_config_text]) eq_refl) as [Hreplace _].
    rewrite (Hreplace
               (exchange (fresh [Matched 0 short_config_text])
                  "<CLI><Configuration>show configuration changes diff</Configuration></CLI>")
               two_lines); [reflexivity | vm_compute; reflexivity | vm_compute; lia].
  - pose (replies := [Matched 0 config_text; Matched 0 short_exec_text]).
    destruct (compare_short_texts parse both_sides (session replies)
                (fresh replies) eq_refl) as [_ Hmerge].
    pose proof (Hmerge (exchange (fresh replies) merge)
                  (exchange (exchange (fresh replies) merge) run)
                  (Text.lstrip five_lines) two_lines
                  ltac:(vm_compute; reflexivity)
                  ltac:(vm_compute; reflexivity)) as Hsides.
    cbv zeta in Hsides. destruct Hsides as [Hshort _].
    fold replies. rewrite Hshort; [| vm_compute; lia].
    vm_compute. reflexivity.
  - pose (replies := [Matched 0 short_config_text; Matched 0 exec_text]).
    destruct (compare_short_texts parse both_sides (session replies)
                (fresh replies) eq_refl) as [_ Hmerge].
    pose proof (Hmerge (exchange (fresh replies) merge)
                  (exchange (exchange (fresh replies) merge) run)
                  two_lines (Text.lstrip five_lines)
                  ltac:(vm_compute; reflexivity)
                  ltac:(vm_compute; reflexivity)) as Hsides.
    cbv zeta in Hsides. destruct Hsides as [_ Hshort].
    fold replies. rewrite Hshort; [| vm_compute; lia].
    vm_compute. reflexivity.
Defined.

Lemma compare_replace_config_piece_witness :
  exists diff,
    fst (compare_replace_config parse (session [Matched 0 config_text]))
    = Return diff /\
    occurs_in diff (Text.lstrip five_lines).
Proof.
  destruct (compare_replace_config_piece parse (session [Matched 0 config_text])
              (fresh [Matched 0 config_text])
              (exchange (fresh [Matched 0 config_text])
                 "<CLI><Configuration>show configuration changes diff</Configuration></CLI>")
              (Text.lstrip five_lines) eq_refl)
    as (diff & Hrun & Hpiece); [vm_compute; reflexivity |].
  exists diff. by rewrite Hrun.
Defined.

Lemma compare_config_merge_fails_witness :
  exists d1,
    compare_config parse both_sides (session [])
    = (Raise TIMEOUT, with_device (session []) d1) /\
    sent (log d1)
    = [envelope "<CLI><Configuration>show configuration merge</Configuration></CLI>"].
Proof.
  apply (compare_config_merge_fails parse both_sides (session []) (fresh [])
           TIMEOUT eq_refl).
  vm_compute. reflexivity.
Defined.

Lemma open_returns_witness :
  let spawn := fun _ : string => Return (login [Matched 0 ok_text]) in
  exists d',
    open parse spawn router = (Return tt, with_device router d', Some d') /\
    sent (log d') = ["secret"; "xml"; envelope "<Lock/>"].
Proof.
  intros spawn.
  destruct (open parse spawn router) as [[r self'] o] eqn:Hopen.
  assert (r = Return tt) as -> by (vm_compute in Hopen; congruence).
  destruct (open_returns parse spawn router self' (login [Matched 0 ok_text]) o
              eq_refl Hopen) as (d' & -> & -> & Hsent).
  exists d'. split; [reflexivity |].
  rewrite Hsent. vm_compute. reflexivity.
Defined.

Lemma open_raises_witness :
  let spawn := fun _ : string => Return (login []) in
  exists d',
    open parse spawn router = (Raise TIMEOUT, with_device router d', Some d') /\
    sent (log d') = ["secret"; "xml"; envelope "<Lock/>"].
Proof.
  intros spawn.
  destruct (open parse spawn router) as [[r self'] o] eqn:Hopen.
  assert (r = Raise TIMEOUT) as -> by (vm_compute in Hopen; congruence).
  destruct (open_raises parse spawn router self' (login []) o TIMEOUT
              eq_refl Hopen) as (d' & pre & -> & _ & Hcase).
  exists d'. vm_compute in Hopen. injection Hopen as <- <-.
  split; reflexivity.
Defined.

Lemma show_wrapper_result_witness :
  exists wrapper,
    __getattr__ parse "show_version" = Return wrapper /\
    fst (wrapper (session [Matched 0 exec_text]))
    = Return (Text.lstrip five_lines).
Proof.
  destruct (__getattr__ parse "show_version") as [wrapper|e] eqn:Hget;
    [| vm_compute in Hget; discriminate].
  exists wrapper. split; [reflexivity |].
  destruct (show_wrapper_result parse "show_version" (Text.lstrip five_lines)
              wrapper (session [Matched 0 exec_text]) (fresh [Matched 0 exec_text])
              (exchange (fresh [Matched 0 exec_text])
                 "<CLI><Exec>show version</Exec></CLI>") Hget eq_refl)
    as (shown & Hrun & _ & Hplain); [vm_compute; reflexivity |].
  rewrite Hrun. cbn [fst]. f_equal. apply Hplain.
  intros (before & mid & after & H).
  assert (Banner.search (Text.lstrip five_lines) = None) as Hnone
    by (vm_compute; reflexivity).
  destruct (proj1 (banner_search_spec (Text.lstrip five_lines))) as [_ Hfind].
  destruct Hfind as [g Hg]; [by exists before, mid, after |]. congruence.
Defined.

Lemma envelope_inj_witness : "<Lock/>" = "<Lock/>".
Proof. apply (envelope_inj "<Lock/>" "<Lock/>"). reflexivity. Defined.

End MoreConcrete.
